(** * EcoTrails query layer (python_ref/query.py)

    A shallow embedding of the loader/cache, the record validator and the
    query engine of [query.py], and the properties of its specification.

    Python values that come out of [json.load] are modelled by the type
    [json]; attribute and type errors of the dynamically typed source are
    explicit in the [result] monad; the module-level cache, the data file
    and the wall clock are threaded through a [World]. *)

From Stdlib Require Import String Ascii ZArith QArith List Bool Lia Arith.
Import ListNotations.

Set Warnings "-register-all".

Local Open Scope string_scope.
Local Open Scope Z_scope.
Local Open Scope list_scope.

(* ====================================================================== *)
(** ** Exceptions and the error monad *)
(* ====================================================================== *)

(** The exception classes the module can meet.  All of them derive from
    [Exception]; [JSONDecodeError] and [UnicodeDecodeError] derive from
    [ValueError], [FileNotFoundError] and [PermissionError] from [OSError]. *)
Inductive exn : Set :=
| AttributeError
| TypeError
| KeyError
| ValueError
| JSONDecodeError
| UnicodeDecodeError
| FileNotFoundError
| PermissionError
| OSError.

Inductive result (A : Type) : Type :=
| Ok (a : A)
| Raise (e : exn).

Arguments Ok {A} a.
Arguments Raise {A} e.

Definition bind {A B : Type} (c : result A) (k : A -> result B) : result B :=
  match c with
  | Ok a => k a
  | Raise e => Raise e
  end.

Notation "x <- c ;; k" := (bind c (fun x => k))
  (at level 61, c at next level, right associativity).

(* ====================================================================== *)
(** ** Python values read from JSON *)
(* ====================================================================== *)

(** A Python [float]: every finite double is a rational number, so that the
    comparisons of the source are exact on [Q]. *)
Inductive pyfloat : Set :=
| FNaN
| FInf (negative : bool)
| FFin (q : Q).

Inductive json : Type :=
| JNull
| JBool (b : bool)
| JInt (n : Z)
| JFloat (f : pyfloat)
| JStr (s : string)
| JList (l : list json)
| JDict (d : list (string * json)).

(** A Python [dict] with string keys, in insertion order; keys are unique
    in a dict built by [json.load] and [dict_set] keeps them so. *)
Definition pydict : Type := list (string * json).

Fixpoint dict_find (key : string) (d : pydict) : option json :=
  match d with
  | [] => None
  | (k, v) :: rest => if String.eqb k key then Some v else dict_find key rest
  end.

(** [d.get(key, default)] on a dict. *)
Definition dict_get (key : string) (default : json) (d : pydict) : json :=
  match dict_find key d with
  | Some v => v
  | None => default
  end.

(** [d[key] = v]: an existing key keeps its place, a new one is appended. *)
Fixpoint dict_set (key : string) (v : json) (d : pydict) : pydict :=
  match d with
  | [] => [(key, v)]
  | (k, v') :: rest =>
      if String.eqb k key then (k, v) :: rest else (k, v') :: dict_set key v rest
  end.

(** [o.get(key, default)]: only a dict has the method. *)
Definition py_get (o : json) (key : string) (default : json) : result json :=
  match o with
  | JDict d => Ok (dict_get key default d)
  | _ => Raise AttributeError
  end.

Definition isinstance_dict (o : json) : bool :=
  match o with JDict _ => true | _ => false end.

Definition isinstance_list (o : json) : bool :=
  match o with JList _ => true | _ => false end.

Definition isinstance_str (o : json) : bool :=
  match o with JStr _ => true | _ => false end.

(** [isinstance(o, (int, float))]; [bool] is a subclass of [int]. *)
Definition isinstance_number (o : json) : bool :=
  match o with JBool _ | JInt _ | JFloat _ => true | _ => false end.

(** The numeric value of an [int], [bool] or [float]. *)
Definition number_value (o : json) : option pyfloat :=
  match o with
  | JBool b => Some (FFin (inject_Z (if b then 1 else 0)))
  | JInt n => Some (FFin (inject_Z n))
  | JFloat f => Some f
  | _ => None
  end.

Definition float_le (a b : pyfloat) : bool :=
  match a, b with
  | FNaN, _ | _, FNaN => false
  | FInf true, _ => true
  | _, FInf false => true
  | FInf false, _ => false
  | _, FInf true => false
  | FFin x, FFin y => Qle_bool x y
  end.

Definition float_eqb (a b : pyfloat) : bool :=
  match a, b with
  | FFin x, FFin y => Qeq_bool x y
  | FInf s, FInf t => Bool.eqb s t
  | _, _ => false
  end.

(** [a <= b]; ordering a number against a non-number is a [TypeError]. *)
Definition py_le (a b : json) : result bool :=
  match number_value a, number_value b with
  | Some x, Some y => Ok (float_le x y)
  | _, _ => Raise TypeError
  end.

(** [lo <= x <= hi], that is [lo <= x and x <= hi]. *)
Definition py_between (lo x hi : json) : result bool :=
  b <- py_le lo x ;;
  if b then py_le x hi else Ok false.

(** Truth value of an object ([not o] is its negation). *)
Definition truthy (o : json) : bool :=
  match o with
  | JNull => false
  | JBool b => b
  | JInt n => negb (n =? 0)
  | JFloat (FFin q) => negb (Qeq_bool q 0)
  | JFloat _ => true
  | JStr s => negb (String.eqb s "")
  | JList l => match l with [] => false | _ => true end
  | JDict d => match d with [] => false | _ => true end
  end.

(** [o == s] for a [str] [s]: only an equal string is equal to it. *)
Definition py_eq_str (o : json) (s : string) : bool :=
  match o with
  | JStr t => String.eqb t s
  | _ => false
  end.

(** [s in l] for a [str] [s] and a list [l]. *)
Definition str_in_list (s : string) (l : list json) : bool :=
  existsb (fun o => py_eq_str o s) l.

(** [needle in hay] for two strings: [needle] occurs in [hay]. *)
Fixpoint str_in (needle hay : string) : bool :=
  if String.prefix needle hay then true
  else match hay with
       | EmptyString => false
       | String _ rest => str_in needle rest
       end.

(* ====================================================================== *)
(** ** The string methods of the runtime *)
(* ====================================================================== *)

(** [str.lower], [str.strip] and the iteration of a string by characters
    are the runtime's; the development is parametric in them and uses of
    them only that the empty string has no letters to lower. *)
Class PyStr : Type := {
  lower : string -> string;
  strip : string -> string;
  chars : string -> list string;
  lower_empty : lower "" = ""
}.

(** The three methods on the ASCII range. *)
Definition ascii_lower_char (c : ascii) : ascii :=
  let n := nat_of_ascii c in
  if (Nat.leb 65 n && Nat.leb n 90)%bool then ascii_of_nat (n + 32) else c.

Fixpoint ascii_lower (s : string) : string :=
  match s with
  | EmptyString => EmptyString
  | String c rest => String (ascii_lower_char c) (ascii_lower rest)
  end.

Definition ascii_space (c : ascii) : bool :=
  let n := nat_of_ascii c in
  ((Nat.leb 9 n && Nat.leb n 13) || (Nat.leb 28 n && Nat.leb n 32))%bool.

Fixpoint lstrip (s : string) : string :=
  match s with
  | EmptyString => EmptyString
  | String c rest => if ascii_space c then lstrip rest else s
  end.

Fixpoint rstrip (s : string) : string :=
  match s with
  | EmptyString => EmptyString
  | String c rest =>
      match rstrip rest with
      | EmptyString => if ascii_space c then EmptyString else String c EmptyString
      | r => String c r
      end
  end.

Definition ascii_strip (s : string) : string := rstrip (lstrip s).

Fixpoint ascii_chars (s : string) : list string :=
  match s with
  | EmptyString => []
  | String c rest => String c EmptyString :: ascii_chars rest
  end.

Definition AsciiStr : PyStr :=
  {| lower := ascii_lower; strip := ascii_strip; chars := ascii_chars;
     lower_empty := eq_refl |}.

Section Engine.

Context {PS : PyStr}.

(** [o.lower()]: only a [str] has the method. *)
Definition py_lower (o : json) : result string :=
  match o with
  | JStr s => Ok (lower s)
  | _ => Raise AttributeError
  end.

(** [iter(o)]: a list yields its elements, a string its characters, a dict
    its keys; nothing else is iterable. *)
Definition py_iter (o : json) : result (list json) :=
  match o with
  | JList l => Ok l
  | JStr s => Ok (map JStr (chars s))
  | JDict d => Ok (map (fun kv => JStr (fst kv)) d)
  | _ => Raise TypeError
  end.

(* ====================================================================== *)
(** ** [_has_valid_coordinates] *)
(* ====================================================================== *)

(** The body of the [try] block. *)
Definition has_valid_coordinates_try (trail : json) : result bool :=
  location_info <- py_get trail "location" (JDict []) ;;
  coordinates <- py_get location_info "coordinates" (JDict []) ;;
  if negb (isinstance_dict coordinates) then Ok false else
  latitude <- py_get coordinates "lat" JNull ;;
  longitude <- py_get coordinates "lng" JNull ;;
  if negb (isinstance_number latitude) || negb (isinstance_number longitude)
  then Ok false else
  lat_ok <- py_between (JInt (-90)) latitude (JInt 90) ;;
  if negb lat_ok then Ok false else
  lng_ok <- py_between (JInt (-180)) longitude (JInt 180) ;;
  if negb lng_ok then Ok false else
  Ok true.

(** [except (AttributeError, TypeError, KeyError): return False]. *)
Definition _has_valid_coordinates (trail : json) : result bool :=
  match has_valid_coordinates_try trail with
  | Raise AttributeError | Raise TypeError | Raise KeyError => Ok false
  | r => r
  end.

(* ====================================================================== *)
(** ** The world: data file, module-level cache, clock *)
(* ====================================================================== *)

(** The data file at [DATA_FILE_PATH]: its modification time (the finite
    float of [os.path.getmtime]) and what [open] followed by [json.load]
    gives, a value or an exception. *)
Record File : Type := {
  mtime : Q;
  content : result json
}.

Record World : Type := {
  file : option File;                 (* [None]: the file does not exist *)
  _data_cache : option (list json);   (* the global [_data_cache] *)
  _cache_timestamp : option Q;        (* the global [_cache_timestamp] *)
  reads : nat;                        (* how often the file was opened and parsed *)
  ticks : nat;                        (* how often the clock was read *)
  wall : nat -> string                (* the successive readings of the clock *)
}.

(** A computation of the module: it may raise and it threads the world. *)
Definition py (A : Type) : Type := World -> result A * World.

Definition ret {A : Type} (a : A) : py A := fun w => (Ok a, w).

Definition lift {A : Type} (r : result A) : py A := fun w => (r, w).

Definition bind_py {A B : Type} (c : py A) (k : A -> py B) : py B :=
  fun w =>
    match c w with
    | (Ok a, w') => k a w'
    | (Raise e, w') => (Raise e, w')
    end.

Notation "x <~ c ;; k" := (bind_py c (fun x => k))
  (at level 61, c at next level, right associativity).

(** [datetime.now().isoformat()]. *)
Definition datetime_now_isoformat : py string :=
  fun w =>
    (Ok (wall w (ticks w)),
     {| file := file w; _data_cache := _data_cache w;
        _cache_timestamp := _cache_timestamp w; reads := reads w;
        ticks := S (ticks w); wall := wall w |}).

(** [with open(DATA_FILE_PATH) as file: raw_data = json.load(file)]. *)
Definition read_data_file (f : File) : py json :=
  fun w =>
    (content f,
     {| file := file w; _data_cache := _data_cache w;
        _cache_timestamp := _cache_timestamp w; reads := S (reads w);
        ticks := ticks w; wall := wall w |}).

(** [_data_cache = trails; _cache_timestamp = t]. *)
Definition set_cache (trails : list json) (t : Q) : py unit :=
  fun w =>
    (Ok tt,
     {| file := file w; _data_cache := Some trails;
        _cache_timestamp := Some t; reads := reads w;
        ticks := ticks w; wall := wall w |}).

(** [_cache_timestamp == file_modification_time]. *)
Definition timestamp_eq (stored : option Q) (t : Q) : bool :=
  match stored with
  | Some u => Qeq_bool u t
  | None => false
  end.

(* ====================================================================== *)
(** ** [load_trail_data] *)
(* ====================================================================== *)

(** The two metadata stamps of an accepted record. *)
Definition stamp (loaded_at : string) (index : nat) (trail : pydict) : pydict :=
  dict_set "_index" (JInt (Z.of_nat index))
    (dict_set "_loaded_at" (JStr loaded_at) trail).

(** [for index, trail in enumerate(eco_trails)], from position [index] on. *)
Fixpoint validate_loop (index : nat) (eco_trails : list json)
    (validated_trails : list json) : py (list json) :=
  match eco_trails with
  | [] => ret validated_trails
  | trail :: rest =>
      match trail with
      | JDict d =>
          let trail_id := dict_get "id" JNull d in
          if negb (truthy trail_id)
          then validate_loop (S index) rest validated_trails
          else
            (* a missing name is only reported *)
            now <~ datetime_now_isoformat ;;
            validate_loop (S index) rest
              (validated_trails ++ [JDict (stamp now index d)])
      | _ => validate_loop (S index) rest validated_trails
      end
  end.

(** [_data_cache is not None and _cache_timestamp == file_modification_time]:
    the cached collection when the test holds. *)
Definition fresh_cache (w : World) (file_modification_time : Q)
    : option (list json) :=
  match _data_cache w with
  | Some cached =>
      if timestamp_eq (_cache_timestamp w) file_modification_time
      then Some cached else None
  | None => None
  end.

(** Reading, checking and caching the file, from [open] to the end of the
    [try] block. *)
Definition reload (f : File) : py (list json) :=
  raw_data <~ read_data_file f ;;
  if negb (isinstance_dict raw_data) then lift (Raise ValueError) else
  eco_trails <~ lift (py_get raw_data "eco_trails" JNull) ;;
  match eco_trails with
  | JList l =>
      validated_trails <~ validate_loop 0 l [] ;;
      _ <~ set_cache validated_trails (mtime f) ;;
      ret validated_trails
  | _ => lift (Raise ValueError)
  end.

(** The body of the [try] block. *)
Definition load_try : py (list json) :=
  fun w =>
    match file w with
    | None => (Ok [], w)
    | Some f =>
        match fresh_cache w (mtime f) with
        | Some cached => (Ok cached, w)
        | None => reload f w
        end
    end.

(** The [except] clauses, in the order of the source; each returns [[]]. *)
Definition load_except (e : exn) : result (list json) :=
  match e with
  | FileNotFoundError => Ok []
  | JSONDecodeError => Ok []
  | ValueError | UnicodeDecodeError => Ok []
  | _ => Ok []
  end.

Definition load_trail_data : py (list json) :=
  fun w =>
    match load_try w with
    | (Ok trails, w') => (Ok trails, w')
    | (Raise e, w') => (load_except e, w')
    end.

(** [clear_data_cache]. *)
Definition clear_data_cache : py unit :=
  fun w =>
    (Ok tt,
     {| file := file w; _data_cache := None; _cache_timestamp := None;
        reads := reads w; ticks := ticks w; wall := wall w |}).

(* ====================================================================== *)
(** ** [search_trails] *)
(* ====================================================================== *)

(** [any(normalized_query in keyword.lower() for keyword in keywords)]:
    the generator stops at the first keyword that matches. *)
Fixpoint any_keyword (normalized_query : string) (keywords : list json)
    : result bool :=
  match keywords with
  | [] => Ok false
  | keyword :: rest =>
      k <- py_lower keyword ;;
      if str_in normalized_query k then Ok true
      else any_keyword normalized_query rest
  end.

(** One turn of the loop: the list of matches after [trail]. *)
Definition search_step (normalized_query : string) (trail : json)
    (matching_trails : list json) : result (list json) :=
  valid <- _has_valid_coordinates trail ;;
  if negb valid then Ok matching_trails else
  name <- py_get trail "name" (JStr "") ;;
  trail_name <- py_lower name ;;
  if str_in normalized_query trail_name then Ok (matching_trails ++ [trail]) else
  description <- py_get trail "description" (JStr "") ;;
  trail_description <- py_lower description ;;
  if str_in normalized_query trail_description
  then Ok (matching_trails ++ [trail]) else
  location <- py_get trail "location" (JDict []) ;;
  region_field <- py_get location "region" (JStr "") ;;
  region <- py_lower region_field ;;
  if str_in normalized_query region then Ok (matching_trails ++ [trail]) else
  location' <- py_get trail "location" (JDict []) ;;
  location_keywords <- py_get location' "keywords" (JList []) ;;
  keywords <- py_iter location_keywords ;;
  found <- any_keyword normalized_query keywords ;;
  if found then Ok (matching_trails ++ [trail]) else
  trail_details <- py_get trail "trail_details" (JDict []) ;;
  difficulty_field <- py_get trail_details "difficulty" (JStr "") ;;
  difficulty <- py_lower difficulty_field ;;
  if str_in normalized_query difficulty then Ok (matching_trails ++ [trail])
  else Ok matching_trails.

Fixpoint search_loop (normalized_query : string) (trails_data : list json)
    (matching_trails : list json) : result (list json) :=
  match trails_data with
  | [] => Ok matching_trails
  | trail :: rest =>
      matching_trails' <- search_step normalized_query trail matching_trails ;;
      search_loop normalized_query rest matching_trails'
  end.

Definition search_trails (query : string) : py (list json) :=
  if negb (truthy (JStr query)) then ret [] else
  let normalized_query := strip (lower query) in
  if negb (truthy (JStr normalized_query)) then ret [] else
  trails_data <~ load_trail_data ;;
  lift (search_loop normalized_query trails_data []).

(* ====================================================================== *)
(** ** [get_trail_by_id] and [list_all_trails] *)
(* ====================================================================== *)

Fixpoint find_by_id (trail_id : string) (trails_data : list json)
    : result (option json) :=
  match trails_data with
  | [] => Ok None
  | trail :: rest =>
      v <- py_get trail "id" JNull ;;
      if py_eq_str v trail_id then Ok (Some trail)
      else find_by_id trail_id rest
  end.

Definition get_trail_by_id (trail_id : string) : py (option json) :=
  if negb (truthy (JStr trail_id)) then ret None else
  trails_data <~ load_trail_data ;;
  lift (find_by_id trail_id trails_data).

Definition list_all_trails : py (list json) := load_trail_data.

(* ====================================================================== *)
(** ** [advanced_search] *)
(* ====================================================================== *)

(** [region.lower().strip() if region else None]. *)
Definition normalize_lower (arg : option string) : option string :=
  match arg with
  | Some s => if truthy (JStr s) then Some (strip (lower s)) else None
  | None => None
  end.

(** [best_season.strip() if best_season else None]. *)
Definition normalize_season (arg : option string) : option string :=
  match arg with
  | Some s => if truthy (JStr s) then Some (strip s) else None
  | None => None
  end.

(** Truth value of a normalized criterion ([None] and [''] are false). *)
Definition criterion (arg : option string) : option string :=
  match arg with
  | Some s => if truthy (JStr s) then Some s else None
  | None => None
  end.

(** The body of the loop: the final value of [matches_criteria]. *)
Definition advanced_match (region_normalized difficulty_normalized
    season_normalized : option string) (trail : json) : result bool :=
  let matches_criteria := true in
  matches_criteria <-
    match criterion region_normalized with
    | Some r =>
        location <- py_get trail "location" (JDict []) ;;
        region_field <- py_get location "region" (JStr "") ;;
        trail_region <- py_lower region_field ;;
        if negb (str_in r trail_region) then Ok false else Ok matches_criteria
    | None => Ok matches_criteria
    end ;;
  matches_criteria <-
    match criterion difficulty_normalized with
    | Some d =>
        if matches_criteria then
          trail_details <- py_get trail "trail_details" (JDict []) ;;
          difficulty_field <- py_get trail_details "difficulty" (JStr "") ;;
          trail_difficulty <- py_lower difficulty_field ;;
          if negb (str_in d trail_difficulty) then Ok false
          else Ok matches_criteria
        else Ok matches_criteria
    | None => Ok matches_criteria
    end ;;
  match criterion season_normalized with
  | Some s =>
      if matches_criteria then
        trail_seasons <- py_get trail "best_season" (JList []) ;;
        match trail_seasons with
        | JList l => if negb (str_in_list s l) then Ok false else Ok matches_criteria
        | _ => Ok false
        end
      else Ok matches_criteria
  | None => Ok matches_criteria
  end.

(** [for trail in filtered_trails: ... filtered_trails.append(trail)].
    The list iterator holds a position [i] into the very list the body
    appends to; it stops when [i] reaches the current length.  The loop
    need not end, hence the fuel. *)
Fixpoint advanced_loop (fuel : nat) (rn dn sn : option string) (i : nat)
    (filtered_trails : list json) : option (result (list json)) :=
  match fuel with
  | O => None
  | S fuel' =>
      match nth_error filtered_trails i with
      | None => Some (Ok filtered_trails)
      | Some trail =>
          match advanced_match rn dn sn trail with
          | Raise e => Some (Raise e)
          | Ok matches_criteria =>
              advanced_loop fuel' rn dn sn (S i)
                (if matches_criteria then filtered_trails ++ [trail]
                 else filtered_trails)
          end
      end
  end.

(** [None] when the fuel does not suffice. *)
Definition advanced_search (fuel : nat) (region difficulty best_season
    : option string) (w : World) : option (result (list json) * World) :=
  match load_trail_data w with
  | (Raise e, w') => Some (Raise e, w')
  | (Ok trails_data, w') =>
      let filtered_trails := [] in
      let region_normalized := normalize_lower region in
      let difficulty_normalized := normalize_lower difficulty in
      let season_normalized := normalize_season best_season in
      match advanced_loop fuel region_normalized difficulty_normalized
              season_normalized 0 filtered_trails with
      | Some r => Some (r, w')
      | None => None
      end
  end.

(* ====================================================================== *)
(** ** [get_data_statistics] *)
(* ====================================================================== *)

(** A counting dict: keys are the hashable values met, in insertion order. *)
Definition counts : Type := list (json * Z).

(** Lists and dicts are unhashable. *)
Definition hashable (o : json) : bool :=
  match o with
  | JList _ | JDict _ => false
  | _ => true
  end.

(** Equality of dict keys: numbers (with [bool]) by value, strings by
    content; every [NaN] read by [json.load] is one and the same object,
    which a dict finds by identity. *)
Definition key_eqb (a b : json) : bool :=
  match a, b with
  | JNull, JNull => true
  | JStr s, JStr t => String.eqb s t
  | _, _ =>
      match number_value a, number_value b with
      | Some FNaN, Some FNaN => true
      | Some x, Some y => float_eqb x y
      | _, _ => false
      end
  end.

Fixpoint counts_get (key : json) (default : Z) (c : counts) : Z :=
  match c with
  | [] => default
  | (k, n) :: rest => if key_eqb k key then n else counts_get key default rest
  end.

Fixpoint counts_set (key : json) (n : Z) (c : counts) : counts :=
  match c with
  | [] => [(key, n)]
  | (k, m) :: rest =>
      if key_eqb k key then (k, n) :: rest else (k, m) :: counts_set key n rest
  end.

(** [c[key] = c.get(key, 0) + 1]. *)
Definition count_incr (key : json) (c : counts) : result counts :=
  if hashable key then Ok (counts_set key (counts_get key 0 c + 1) c)
  else Raise TypeError.

(** [for season in trail_seasons: season_counts[season] = ...]. *)
Fixpoint count_seasons (trail_seasons : list json) (season_counts : counts)
    : result counts :=
  match trail_seasons with
  | [] => Ok season_counts
  | season :: rest =>
      season_counts' <- count_incr season season_counts ;;
      count_seasons rest season_counts'
  end.

Fixpoint stats_loop (trails_data : list json)
    (region_counts difficulty_counts season_counts : counts)
    : result (counts * counts * counts) :=
  match trails_data with
  | [] => Ok (region_counts, difficulty_counts, season_counts)
  | trail :: rest =>
      location <- py_get trail "location" (JDict []) ;;
      region <- py_get location "region" (JStr "Неизвестен регион") ;;
      region_counts' <- count_incr region region_counts ;;
      trail_details <- py_get trail "trail_details" (JDict []) ;;
      difficulty <-
        py_get trail_details "difficulty" (JStr "Неопределена трудност") ;;
      difficulty_counts' <- count_incr difficulty difficulty_counts ;;
      trail_seasons <- py_get trail "best_season" (JList []) ;;
      season_counts' <-
        match trail_seasons with
        | JList l => count_seasons l season_counts
        | _ => Ok season_counts
        end ;;
      stats_loop rest region_counts' difficulty_counts' season_counts'
  end.

(** The returned dict; [cache_info] is absent for an empty collection. *)
Record Stats : Type := {
  total_trails : Z;
  regions : counts;
  difficulties : counts;
  seasons : counts;
  last_updated : option string;
  cache_info : option (bool * option Q)
}.

Definition empty_stats : Stats :=
  {| total_trails := 0; regions := []; difficulties := []; seasons := [];
     last_updated := None; cache_info := None |}.

Definition get_data_statistics : py Stats :=
  trails_data <~ load_trail_data ;;
  if negb (truthy (JList trails_data)) then ret empty_stats else
  c <~ lift (stats_loop trails_data [] [] []) ;;
  let '(region_counts, difficulty_counts, season_counts) := c in
  now <~ datetime_now_isoformat ;;
  fun w =>
    (Ok {| total_trails := Z.of_nat (length trails_data);
           regions := region_counts;
           difficulties := difficulty_counts;
           seasons := season_counts;
           last_updated := Some now;
           cache_info :=
             Some (match _data_cache w with Some _ => true | None => false end,
                   _cache_timestamp w) |}, w).

(* ====================================================================== *)
(** ** [validate_trail_data] *)
(* ====================================================================== *)

Definition msg_missing (field : string) : string :=
  ("Липсва задължителното поле: " ++ field)%string.

Definition msg_coordinates : string := "Невалидни или липсващи координати".

Definition msg_location : string := "Полето 'location' трябва да бъде обект".

Definition msg_trail_details : string :=
  "Полето 'trail_details' трябва да бъде обект".

Definition msg_best_season : string :=
  "Полето 'best_season' трябва да бъде списък".

(** [for field in required_fields: if not trail.get(field): errors.append(..)]. *)
Fixpoint required_loop (required_fields : list string) (trail : json)
    (errors : list string) : result (list string) :=
  match required_fields with
  | [] => Ok errors
  | field :: rest =>
      v <- py_get trail field JNull ;;
      required_loop rest trail
        (if negb (truthy v) then errors ++ [msg_missing field] else errors)
  end.

Definition validate_trail_data (trail : json) : result (bool * list string) :=
  let errors := [] in
  errors <- required_loop ["id"; "name"] trail errors ;;
  valid <- _has_valid_coordinates trail ;;
  let errors := if negb valid then errors ++ [msg_coordinates] else errors in
  location <- py_get trail "location" (JDict []) ;;
  let errors :=
    if negb (isinstance_dict location) then errors ++ [msg_location]
    else errors in
  trail_details <- py_get trail "trail_details" (JDict []) ;;
  let errors :=
    if negb (isinstance_dict trail_details) then errors ++ [msg_trail_details]
    else errors in
  seasons <- py_get trail "best_season" (JList []) ;;
  let errors :=
    if negb (isinstance_list seasons) then errors ++ [msg_best_season]
    else errors in
  Ok (Nat.eqb (length errors) 0, errors).

End Engine.

(* ====================================================================== *)
(** ** What the specification says, as definitions *)
(* ====================================================================== *)

Section Specification.

Context {PS : PyStr}.

(** The value is a number between [lo] and [hi]. *)
Definition in_bounds (x : json) (lo hi : Z) : bool :=
  match number_value x with
  | Some v => float_le (FFin (inject_Z lo)) v && float_le v (FFin (inject_Z hi))
  | None => false
  end.

(** Coordinates present, numeric and in bounds: [location] is a mapping
    whose [coordinates] is a mapping with a latitude in [-90, 90] and a
    longitude in [-180, 180]. *)
Definition coordinates_valid (trail : pydict) : bool :=
  match dict_find "location" trail with
  | Some (JDict location) =>
      match dict_find "coordinates" location with
      | Some (JDict c) =>
          match dict_find "lat" c, dict_find "lng" c with
          | Some lat, Some lng =>
              in_bounds lat (-90) 90 && in_bounds lng (-180) 180
          | _, _ => false
          end
      | _ => false
      end
  | _ => false
  end.

(** A field of a sub-object, when the sub-object is there. *)
Definition sub_field (key : string) (o : option json) : option json :=
  match o with
  | Some (JDict d) => dict_find key d
  | _ => None
  end.

(** A field that, if present, satisfies [p]. *)
Definition if_present (p : json -> bool) (o : option json) : bool :=
  match o with
  | Some v => p v
  | None => true
  end.

(** A field that is present and satisfies [p]. *)
Definition present_and (p : json -> bool) (o : option json) : bool :=
  match o with
  | Some v => p v
  | None => false
  end.

(** *** Multi-criteria filter, as specified *)

(** The normalized term occurs in the lower-cased text field. *)
Definition text_contains (nq : string) (field : option json) : bool :=
  match field with
  | Some (JStr s) => str_in nq (lower s)
  | _ => false
  end.

(** Case-insensitive substring match of a criterion against a text field. *)
Definition field_matches (term : string) (field : option json) : bool :=
  text_contains (strip (lower term)) field.

(** The trimmed term is an element of the sequence. *)
Definition season_matches (term : string) (field : option json) : bool :=
  match field with
  | Some (JList l) => str_in_list (strip term) l
  | _ => false
  end.

Definition advanced_matches (region difficulty season : option string)
    (trail : json) : bool :=
  match trail with
  | JDict d =>
      match region with
      | Some r => field_matches r (sub_field "region" (dict_find "location" d))
      | None => true
      end &&
      match difficulty with
      | Some x =>
          field_matches x (sub_field "difficulty" (dict_find "trail_details" d))
      | None => true
      end &&
      match season with
      | Some s => season_matches s (dict_find "best_season" d)
      | None => true
      end
  | _ => false
  end.

Definition advanced_search_spec (region difficulty season : option string)
    (loaded : list json) : list json :=
  filter (advanced_matches region difficulty season) loaded.

(** *** Keyword search, as specified *)

Definition keyword_contains (nq : string) (field : option json) : bool :=
  match field with
  | Some (JList l) => existsb (fun k => text_contains nq (Some k)) l
  | _ => false
  end.

Definition search_matches (nq : string) (d : pydict) : bool :=
  text_contains nq (dict_find "name" d)
  || text_contains nq (dict_find "description" d)
  || text_contains nq (sub_field "region" (dict_find "location" d))
  || keyword_contains nq (sub_field "keywords" (dict_find "location" d))
  || text_contains nq (sub_field "difficulty" (dict_find "trail_details" d)).

Definition search_spec (nq : string) (loaded : list json) : list json :=
  filter (fun t => match t with
                   | JDict d => coordinates_valid d && search_matches nq d
                   | _ => false
                   end) loaded.

(** The text fields of a record have the types of the data model: strings,
    a list of strings for the keywords, a mapping for [trail_details]. *)
Definition list_of_str (o : json) : bool :=
  match o with
  | JList l => forallb isinstance_str l
  | _ => false
  end.

Definition text_typed (d : pydict) : bool :=
  if_present isinstance_str (dict_find "name" d)
  && if_present isinstance_str (dict_find "description" d)
  && if_present isinstance_str (sub_field "region" (dict_find "location" d))
  && if_present list_of_str (sub_field "keywords" (dict_find "location" d))
  && if_present isinstance_dict (dict_find "trail_details" d)
  && if_present isinstance_str
       (sub_field "difficulty" (dict_find "trail_details" d)).

(** *** Record validator, as specified *)

(** The six rules in their order, each with its message. *)
Definition validation_rules (d : pydict) : list (bool * string) :=
  [ (present_and truthy (dict_find "id" d), msg_missing "id");
    (present_and truthy (dict_find "name" d), msg_missing "name");
    (coordinates_valid d, msg_coordinates);
    (if_present isinstance_dict (dict_find "location" d), msg_location);
    (if_present isinstance_dict (dict_find "trail_details" d), msg_trail_details);
    (if_present isinstance_list (dict_find "best_season" d), msg_best_season) ].

Definition failed_messages (rules : list (bool * string)) : list string :=
  map snd (filter (fun r => negb (fst r)) rules).

(** *** Loader, as specified *)

(** A source element is admitted when it is an object with a truthy [id]. *)
Definition admissible (o : json) : bool :=
  match o with
  | JDict d => truthy (dict_get "id" JNull d)
  | _ => false
  end.

(** [loaded] is what the loader keeps of [src]: every record is a stamped
    admissible element of [src], every admissible element is kept whatever
    its name, and the records come in the order of their positions. *)
Definition loaded_from (src loaded : list json) : Prop :=
  (forall r, In r loaded ->
     exists d, r = JDict d /\ truthy (dict_get "id" JNull d) = true)
  /\ (forall i d, nth_error src i = Some (JDict d) ->
        truthy (dict_get "id" JNull d) = true ->
        exists now, In (JDict (stamp now i d)) loaded)
  /\ (forall r, In r loaded ->
        exists i d now,
          nth_error src i = Some (JDict d)
          /\ r = JDict (stamp now i d)
          /\ dict_get "_index" JNull (stamp now i d) = JInt (Z.of_nat i))
  /\ (forall k1 k2 d1 d2 i1 i2,
        (k1 < k2)%nat ->
        nth_error loaded k1 = Some (JDict d1) ->
        nth_error loaded k2 = Some (JDict d2) ->
        dict_get "_index" JNull d1 = JInt i1 ->
        dict_get "_index" JNull d2 = JInt i2 ->
        i1 < i2).

(** The cache, when filled, holds a collection the loader built. *)
Definition well_cached (w : World) : Prop :=
  forall cached, _data_cache w = Some cached -> exists src, loaded_from src cached.

(** The file's content is a JSON object whose [eco_trails] is the list [src]. *)
Definition source_list (f : File) (src : list json) : Prop :=
  exists top, content f = Ok (JDict top)
              /\ dict_get "eco_trails" JNull top = JList src.

(** The load cannot succeed: no file, or reading it raises, or its content
    is not an object with a list [eco_trails]. *)
Definition unusable_source (w : World) : Prop :=
  match file w with
  | None => True
  | Some f =>
      fresh_cache w (mtime f) = None
      /\ match content f with
         | Raise _ => True
         | Ok (JDict top) => isinstance_list (dict_get "eco_trails" JNull top) = false
         | Ok _ => True
         end
  end.

(** *** Statistics, as specified *)

Definition sum_counts (c : counts) : Z :=
  fold_right (fun kv acc => snd kv + acc) 0 c.

(** How many seasons a record lists. *)
Definition season_occurrences (trail : json) : Z :=
  match trail with
  | JDict d =>
      match dict_get "best_season" (JList []) d with
      | JList l => Z.of_nat (length l)
      | _ => 0
      end
  | _ => 0
  end.

Definition total_season_occurrences (loaded : list json) : Z :=
  fold_right (fun t acc => season_occurrences t + acc) 0 loaded.

(** The fields the statistics read have usable types: [location] and
    [trail_details], if present, are mappings; region, difficulty and the
    listed seasons are hashable. *)
Definition stats_typed (trail : json) : bool :=
  match trail with
  | JDict d =>
      if_present isinstance_dict (dict_find "location" d)
      && if_present hashable (sub_field "region" (dict_find "location" d))
      && if_present isinstance_dict (dict_find "trail_details" d)
      && if_present hashable
           (sub_field "difficulty" (dict_find "trail_details" d))
      && if_present (fun s => match s with
                              | JList l => forallb hashable l
                              | _ => true
                              end) (dict_find "best_season" d)
  | _ => false
  end.

(** The first of two loads does not end in an [except] clause: the file is
    absent, or the cache is fresh, or the file holds an object whose
    [eco_trails] is a list. *)
Definition loads_cleanly (w : World) : Prop :=
  match file w with
  | None => True
  | Some f => fresh_cache w (mtime f) <> None \/ exists src, source_list f src
  end.

(** The fields the multi-criteria filter reads have the types of the data
    model: [location] and [trail_details], if present, are mappings, and
    their [region] and [difficulty], if present, strings. *)
Definition filter_typed (d : pydict) : bool :=
  if_present isinstance_dict (dict_find "location" d)
  && if_present isinstance_str (sub_field "region" (dict_find "location" d))
  && if_present isinstance_dict (dict_find "trail_details" d)
  && if_present isinstance_str
       (sub_field "difficulty" (dict_find "trail_details" d)).

(** A criterion is omitted, or supplied with a term that is not blank. *)
Definition supplied (normalize : string -> string) (arg : option string)
    : Prop :=
  match arg with
  | Some s => s <> "" /\ normalize s <> ""
  | None => True
  end.

End Specification.

(* ====================================================================== *)
(** ** The loader in closed form *)
(* ====================================================================== *)

(** What [validate_loop] appends for the source elements from position
    [index] on, the clock having been read [tick] times before. *)
Fixpoint kept (clock : nat -> string) (tick index : nat) (src : list json)
    : list json :=
  match src with
  | [] => []
  | JDict d :: rest =>
      if truthy (dict_get "id" JNull d)
      then JDict (stamp (clock tick) index d) :: kept clock (S tick) (S index) rest
      else kept clock tick (S index) rest
  | _ :: rest => kept clock tick (S index) rest
  end.

(** The world after [n] more readings of the clock. *)
Definition advance (n : nat) (w : World) : World :=
  {| file := file w; _data_cache := _data_cache w;
     _cache_timestamp := _cache_timestamp w; reads := reads w;
     ticks := ticks w + n; wall := wall w |}.

(* ====================================================================== *)
(** ** Three statements of the specification, as they are worded *)
(* ====================================================================== *)

(** Keyword search for every non-empty query and every loaded collection. *)
Definition search_as_stated {PS : PyStr} : Prop :=
  forall query w trails w1,
    load_trail_data w = (Ok trails, w1) ->
    query <> "" ->
    search_trails query w = (Ok (search_spec (strip (lower query)) trails), w1).

(** Two consecutive loads of an unchanged file: same collection, and no
    read in the second. *)
Definition load_twice_as_stated : Prop :=
  forall w trails w1 trails' w2,
    load_trail_data w = (Ok trails, w1) ->
    load_trail_data w1 = (Ok trails', w2) ->
    trails' = trails /\ reads w2 = reads w1.

(** Statistics for every loaded collection. *)
Definition statistics_as_stated : Prop :=
  forall w trails w1,
    load_trail_data w = (Ok trails, w1) ->
    exists s w2,
      get_data_statistics w = (Ok s, w2)
      /\ total_trails s = Z.of_nat (length trails)
      /\ sum_counts (difficulties s) = total_trails s.

(* ====================================================================== *)
(** ** Sample data *)
(* ====================================================================== *)

(** A world in which nothing was loaded yet and the data file has the given
    content. *)
Definition fresh_world (c : result json) : World :=
  {| file := Some {| mtime := 1700000000 # 1; content := c |};
     _data_cache := None; _cache_timestamp := None;
     reads := 0; ticks := 0;
     wall := fun _ => "2025-06-01T12:00:00" |}.

(** A data file with the given records. *)
Definition eco_file (records : list json) : result json :=
  Ok (JDict [("eco_trails", JList records)]).

Definition sofia_coordinates : json :=
  JDict [("lat", JFloat (FFin (4213 # 100))); ("lng", JFloat (FFin (2332 # 100)))].

Definition rila_lakes : json :=
  JDict [("id", JStr "rila-1");
         ("name", JStr "Rila Lakes Trail");
         ("description", JStr "Seven glacial lakes");
         ("location", JDict [("region", JStr "Rila");
                              ("keywords", JList [JStr "lakes"; JStr "glacier"]);
                              ("coordinates", sofia_coordinates)]);
         ("trail_details", JDict [("difficulty", JStr "Easy")]);
         ("best_season", JList [JStr "summer"; JStr "autumn"])].

Definition rila_world : World := fresh_world (eco_file [rila_lakes]).

(** The record as the loader stamps it. *)
Definition rila_lakes_loaded : json :=
  match rila_lakes with
  | JDict d => JDict (stamp "2025-06-01T12:00:00" 0 d)
  | other => other
  end.

(** A data file that is not JSON. *)
Definition broken_world : World := fresh_world (Raise JSONDecodeError).

(** Records the loader accepts, with valid coordinates, of which one text
    field is not a string. *)
Definition odd_keywords : json :=
  JDict [("id", JStr "k1");
         ("location", JDict [("keywords", JList [JInt 5]);
                              ("coordinates", sofia_coordinates)])].

Definition odd_name : json :=
  JDict [("id", JStr "n1");
         ("name", JNull);
         ("location", JDict [("coordinates", sofia_coordinates)])].

Definition odd_description : json :=
  JDict [("id", JStr "d1");
         ("description", JInt 7);
         ("location", JDict [("coordinates", sofia_coordinates)])].

Definition odd_difficulty : json :=
  JDict [("id", JStr "x1");
         ("location", JDict [("coordinates", sofia_coordinates)]);
         ("trail_details", JDict [("difficulty", JInt 3)])].

(** A record the loader accepts whose [location] is a string. *)
Definition odd_location : json :=
  JDict [("id", JStr "l1"); ("name", JStr "Vitosha"); ("location", JStr "Sofia")].

(** Two records with the same id. *)
Definition pirin_a : pydict := [("id", JStr "pirin"); ("name", JStr "Vihren")].

Definition pirin_b : pydict := [("id", JStr "pirin"); ("name", JStr "Bansko")].

(** A record without a name. *)
Definition nameless : pydict := [("id", JStr "anon")].

(** A data file with an element that is no object, a record without a
    name, a record with an empty id and a full record. *)
Definition mixed_source : list json :=
  [JStr "junk"; JDict nameless; JDict [("id", JStr "")]; rila_lakes].

Definition mixed_world : World := fresh_world (eco_file mixed_source).

Definition pirin_world : World :=
  fresh_world (eco_file [JDict pirin_a; JDict pirin_b]).

Definition odd_location_world : World := fresh_world (eco_file [odd_location]).

(** The world a load leaves behind. *)
Definition after_load (w : World) : World := snd (load_trail_data w).

(* ====================================================================== *)
(** ** [get_trails_by_region] and [export_trails_to_json] *)
(* ====================================================================== *)

Section RegionAndExport.

Context {PS : PyStr}.

Notation "x <~ c ;; k" := (bind_py c (fun x => k))
  (at level 61, c at next level, right associativity).

(** [for trail in trails_data: ... region_trails.append(trail)]. *)
Fixpoint region_loop (region_normalized : string) (trails_data : list json)
    (region_trails : list json) : result (list json) :=
  match trails_data with
  | [] => Ok region_trails
  | trail :: rest =>
      location <- py_get trail "location" (JDict []) ;;
      region_field <- py_get location "region" (JStr "") ;;
      trail_region <- py_lower region_field ;;
      region_loop region_normalized rest
        (if str_in region_normalized trail_region
         then region_trails ++ [trail] else region_trails)
  end.

Definition get_trails_by_region (region : string) : py (list json) :=
  if negb (truthy (JStr region)) then ret [] else
  trails_data <~ load_trail_data ;;
  lift (let region_trails := [] in
        let region_normalized := strip (lower region) in
        region_loop region_normalized trails_data region_trails).

(** The test of the loop on a record whose [location] is absent or a
    mapping and whose [region] is absent or a string: an absent region
    counts as the empty string. *)
Definition region_contains (nq : string) (trail : json) : bool :=
  match trail with
  | JDict d =>
      match sub_field "region" (dict_find "location" d) with
      | Some (JStr s) => str_in nq (lower s)
      | Some _ => false
      | None => str_in nq ""
      end
  | _ => false
  end.

Definition region_typed (trail : json) : bool :=
  match trail with
  | JDict d =>
      if_present isinstance_dict (dict_find "location" d)
      && if_present isinstance_str (sub_field "region" (dict_find "location" d))
  | _ => false
  end.

End RegionAndExport.

(** What a file opened for writing holds afterwards: the whole JSON text
    of a value, or, when the dump did not finish, some beginning of the
    text, possibly none of it. *)
Inductive Written : Type :=
| Complete (v : json)
| Truncated.

(** The disk beside the data file: which paths [open(path, 'w')] can open,
    whether [json.dump] of a value into the file at a path (and the closing
    of the file) goes through, and the files written so far, oldest
    first. *)
Record Disk : Type := {
  world : World;
  can_open : string -> result unit;
  can_dump : string -> json -> result unit;
  written : list (string * Written)
}.

(** The object [export_data]. *)
Definition export_data (trails : list json) (timestamp : string) : json :=
  JDict [("eco_trails", JList trails);
         ("export_info",
          JDict [("timestamp", JStr timestamp);
                 ("total_count", JInt (Z.of_nat (length trails)));
                 ("exported_by", JStr "EcoTrails System")])].

(** The body of the [try] block of [export_trails_to_json]: the list is
    loaded when none is given, [export_data] is built, the file is opened,
    which creates or empties it, and the object is dumped into it. *)
Definition export_try (output_path : string) (trails : option (list json))
    (k : Disk) : result bool * Disk :=
  let loaded :=
    match trails with
    | None => load_trail_data (world k)
    | Some given => (Ok given, world k)
    end in
  match loaded with
  | (Raise e, w1) =>
      (Raise e,
       {| world := w1; can_open := can_open k; can_dump := can_dump k;
          written := written k |})
  | (Ok trails', w1) =>
      match datetime_now_isoformat w1 with
      | (Raise e, w2) =>
          (Raise e,
           {| world := w2; can_open := can_open k; can_dump := can_dump k;
              written := written k |})
      | (Ok timestamp, w2) =>
          match can_open k output_path with
          | Raise e =>
              (Raise e,
               {| world := w2; can_open := can_open k; can_dump := can_dump k;
                  written := written k |})
          | Ok _ =>
              match can_dump k output_path (export_data trails' timestamp) with
              | Raise e =>
                  (Raise e,
                   {| world := w2; can_open := can_open k;
                      can_dump := can_dump k;
                      written := written k ++ [(output_path, Truncated)] |})
              | Ok _ =>
                  (Ok true,
                   {| world := w2; can_open := can_open k;
                      can_dump := can_dump k;
                      written :=
                        written k
                        ++ [(output_path,
                             Complete (export_data trails' timestamp))] |})
              end
          end
      end
  end.

(** [except Exception: return False]. *)
Definition export_trails_to_json (output_path : string)
    (trails : option (list json)) (k : Disk) : result bool * Disk :=
  match export_try output_path trails k with
  | (Ok b, k') => (Ok b, k')
  | (Raise _, k') => (Ok false, k')
  end.

(* ====================================================================== *)
(** ** Notions used by the further properties *)
(* ====================================================================== *)

(** [l1] is [l2] with some elements left out, the order kept. *)
Inductive subseq {A : Type} : list A -> list A -> Prop :=
| subseq_nil : subseq [] []
| subseq_skip (x : A) (l1 l2 : list A) : subseq l1 l2 -> subseq l1 (x :: l2)
| subseq_keep (x : A) (l1 l2 : list A) : subseq l1 l2 -> subseq (x :: l1) (x :: l2).

(** Equality of two numbers as dict keys. *)
Definition float_key_eqb (x y : pyfloat) : bool :=
  match x, y with
  | FNaN, FNaN => true
  | _, _ => float_eqb x y
  end.

(** The region and the difficulty under which [get_data_statistics] counts
    a record, as the loop reads them. *)
Definition region_label (trail : json) : result json :=
  location <- py_get trail "location" (JDict []) ;;
  py_get location "region" (JStr "Неизвестен регион").

Definition difficulty_label (trail : json) : result json :=
  trail_details <- py_get trail "trail_details" (JDict []) ;;
  py_get trail_details "difficulty" (JStr "Неопределена трудност").

(** How many records carry a label that is the dict key [key]. *)
Definition label_count (label : json -> result json) (key : json)
    (trails : list json) : Z :=
  Z.of_nat (length (filter (fun t => match label t with
                                     | Ok l => key_eqb l key
                                     | Raise _ => false
                                     end) trails)).

(** How often the season [key] is listed by the records. *)
Definition season_count (key : json) (trails : list json) : Z :=
  fold_right
    (fun t acc =>
       match t with
       | JDict d =>
           match dict_get "best_season" (JList []) d with
           | JList l =>
               Z.of_nat (length (filter (fun s => key_eqb s key) l)) + acc
           | _ => acc
           end
       | _ => acc
       end) 0 trails.

(** A data file that holds what an export wrote. *)
Definition exported_world (trails : list json) (timestamp : string)
    (t : Q) (w : World) : World :=
  {| file := Some {| mtime := t; content := Ok (export_data trails timestamp) |};
     _data_cache := _data_cache w; _cache_timestamp := _cache_timestamp w;
     reads := reads w; ticks := ticks w; wall := wall w |}.

(* ====================================================================== *)
(** ** More sample data *)
(* ====================================================================== *)

(** The fields of a record. *)
Definition fields_of (trail : json) : pydict :=
  match trail with
  | JDict d => d
  | _ => []
  end.

(** The world after [rila_world] was loaded and the file then replaced. *)
Definition touched_world : World :=
  {| file := Some {| mtime := 1700000500 # 1;
                     content := eco_file [JDict pirin_a] |};
     _data_cache := _data_cache (after_load rila_world);
     _cache_timestamp := _cache_timestamp (after_load rila_world);
     reads := reads (after_load rila_world);
     ticks := ticks (after_load rila_world);
     wall := wall (after_load rila_world) |}.

(** A full record followed by one whose name is [null]. *)
Definition spoiled_world : World :=
  fresh_world (eco_file [rila_lakes; odd_name]).

(** A record with a proper name and a description that is a number. *)
Definition named_oddity : json :=
  JDict [("id", JStr "o1");
         ("name", JStr "Rila ridge");
         ("description", JInt 7);
         ("location", JDict [("keywords", JInt 1);
                              ("coordinates", sofia_coordinates)])].

Definition named_world : World := fresh_world (eco_file [named_oddity]).

(* ====================================================================== *)
(** ** Properties *)
(* ====================================================================== *)

Section Properties.

Context {PS : PyStr}.

(** *** Dicts *)

Lemma dict_find_set_same (k : string) (v : json) (d : pydict) :
  dict_find k (dict_set k v d) = Some v.
Proof.
  induction d as [|[k' v'] d IH]; simpl.
  - now rewrite String.eqb_refl.
  - destruct (String.eqb k' k) eqn:E; simpl; rewrite E; auto.
Qed.

Lemma dict_find_set_other (k k' : string) (v : json) (d : pydict) :
  k <> k' -> dict_find k (dict_set k' v d) = dict_find k d.
Proof.
  intros Hne. induction d as [|[k0 v0] d IH]; simpl.
  - destruct (String.eqb k' k) eqn:E; auto.
    apply String.eqb_eq in E. congruence.
  - destruct (String.eqb k0 k') eqn:E; simpl.
    + apply String.eqb_eq in E. subst k0.
      destruct (String.eqb k' k) eqn:E'; auto.
      apply String.eqb_eq in E'. congruence.
    + now rewrite IH.
Qed.

Lemma dict_get_set_same (k : string) (v dflt : json) (d : pydict) :
  dict_get k dflt (dict_set k v d) = v.
Proof. unfold dict_get. now rewrite dict_find_set_same. Qed.

Lemma dict_get_set_other (k k' : string) (v dflt : json) (d : pydict) :
  k <> k' -> dict_get k dflt (dict_set k' v d) = dict_get k dflt d.
Proof. intros. unfold dict_get. now rewrite dict_find_set_other. Qed.

(** The stamps leave every domain field of the record as it was. *)
Lemma dict_get_stamp (k : string) (dflt : json) (now : string) (i : nat)
    (d : pydict) :
  k <> "_index" -> k <> "_loaded_at" ->
  dict_get k dflt (stamp now i d) = dict_get k dflt d.
Proof.
  intros. unfold stamp. rewrite !dict_get_set_other; auto.
Qed.

Lemma dict_get_stamp_index (dflt : json) (now : string) (i : nat) (d : pydict) :
  dict_get "_index" dflt (stamp now i d) = JInt (Z.of_nat i).
Proof. unfold stamp. apply dict_get_set_same. Qed.

(** *** The loader *)

Lemma validate_loop_kept (src : list json) :
  forall index acc w,
    validate_loop index src acc w
    = (Ok (acc ++ kept (wall w) (ticks w) index src),
       advance (length (kept (wall w) (ticks w) index src)) w).
Proof.
  induction src as [|t rest IH]; intros index acc w; simpl.
  - unfold ret, advance. rewrite app_nil_r, Nat.add_0_r. now destruct w.
  - destruct t; try apply IH.
    destruct (truthy (dict_get "id" JNull d)); simpl; try apply IH.
    unfold bind_py, datetime_now_isoformat. rewrite IH. simpl.
    rewrite <- app_assoc. simpl. unfold advance. simpl.
    do 2 f_equal. f_equal. lia.
Qed.

Lemma load_except_ok (e : exn) : load_except e = Ok [].
Proof. now destruct e. Qed.

(** The loader always comes back with a list. *)
Lemma load_trail_data_ok (w : World) :
  exists trails w', load_trail_data w = (Ok trails, w').
Proof.
  unfold load_trail_data.
  destruct (load_try w) as [[trails|e] w'].
  - eauto.
  - rewrite load_except_ok. eauto.
Qed.

(** A load that reads a usable file. *)
Lemma reload_source (f : File) (src : list json) (w : World) :
  source_list f src ->
  exists w',
    reload f w = (Ok (kept (wall w) (ticks w) 0 src), w')
    /\ file w' = file w
    /\ _data_cache w' = Some (kept (wall w) (ticks w) 0 src)
    /\ _cache_timestamp w' = Some (mtime f)
    /\ reads w' = S (reads w).
Proof.
  intros (top & Hc & Hl).
  unfold reload, bind_py, read_data_file, lift. rewrite Hc. simpl.
  rewrite Hl. rewrite validate_loop_kept. simpl.
  eexists. split; [reflexivity|]. simpl. auto.
Qed.

(** A load that reads an unusable file ends in an [except] clause. *)
Lemma reload_unusable (f : File) (w : World) :
  match content f with
  | Raise _ => True
  | Ok (JDict top) => isinstance_list (dict_get "eco_trails" JNull top) = false
  | Ok _ => True
  end ->
  exists e w',
    reload f w = (Raise e, w')
    /\ file w' = file w
    /\ _data_cache w' = _data_cache w
    /\ _cache_timestamp w' = _cache_timestamp w
    /\ reads w' = S (reads w).
Proof.
  intros H. unfold reload, bind_py, read_data_file, lift.
  destruct (content f) as [raw|e]; simpl.
  - destruct raw; simpl; try (do 2 eexists; split; [reflexivity|simpl; auto]).
    destruct (dict_get "eco_trails" JNull d); simpl in *;
      try discriminate;
      do 2 eexists; split; try reflexivity; simpl; auto.
  - do 2 eexists; split; [reflexivity|simpl; auto].
Qed.

(** C4: [load_trail_data] never raises: it always returns a list, and the
    list is empty when the file is absent, when reading or parsing it
    fails, when its top-level value is not an object and when its
    [eco_trails] field is not a list. *)
Theorem load_never_raises (w : World) :
  exists trails w',
    load_trail_data w = (Ok trails, w')
    /\ (unusable_source w -> trails = []).
Proof.
  unfold load_trail_data, load_try, unusable_source.
  destruct (file w) as [f|].
  - destruct (fresh_cache w (mtime f)) as [cached|] eqn:Hc.
    + exists cached, w. split; [reflexivity|]. intros [H _]. discriminate.
    + destruct (reload f w) as [[trails|e] w'] eqn:Hr.
      * exists trails, w'. split; [reflexivity|].
        intros [_ H]. destruct (reload_unusable f w H) as (e & w'' & Hr' & _).
        congruence.
      * exists [], w'. rewrite load_except_ok. auto.
  - exists [], w. auto.
Qed.

Lemma timestamp_eq_refl (t : Q) : timestamp_eq (Some t) t = true.
Proof. simpl. apply Qeq_bool_iff. reflexivity. Qed.

Lemma load_fresh (w : World) (f : File) (cached : list json) :
  file w = Some f -> fresh_cache w (mtime f) = Some cached ->
  load_trail_data w = (Ok cached, w).
Proof.
  intros Hf Hc. unfold load_trail_data, load_try. now rewrite Hf, Hc.
Qed.

Lemma load_stale (w : World) (f : File) (src : list json) :
  file w = Some f -> fresh_cache w (mtime f) = None -> source_list f src ->
  exists w',
    load_trail_data w = (Ok (kept (wall w) (ticks w) 0 src), w')
    /\ file w' = file w
    /\ _data_cache w' = Some (kept (wall w) (ticks w) 0 src)
    /\ _cache_timestamp w' = Some (mtime f)
    /\ reads w' = S (reads w).
Proof.
  intros Hf Hc Hs. unfold load_trail_data, load_try. rewrite Hf, Hc.
  destruct (reload_source f src w Hs) as (w' & Hr & H).
  destruct H as (H1 & H2).
  exists w'. rewrite Hr. split; [reflexivity|]. split; [congruence|exact H2].
Qed.

(** C5 (amended): with a cached collection whose stored timestamp equals
    the file's modification time, [load_trail_data] returns the cached
    collection and leaves the world as it was: no read, no parse.  Hence
    two consecutive calls with an unchanged file return the same collection
    and the second one reads nothing, provided the first call did not fail
    (the file is absent, or the cache was fresh, or the file holds an
    object whose [eco_trails] is a list).  A call that fails returns the
    empty list and leaves the cache and its timestamp as they were: the
    empty result is not cached, and a collection cached before stays. *)
Theorem load_cache_hit (w : World) :
  (loads_cleanly w ->
   (forall f cached t,
       file w = Some f -> _data_cache w = Some cached ->
       _cache_timestamp w = Some t -> Qeq_bool t (mtime f) = true ->
       load_trail_data w = (Ok cached, w))
   /\ (forall trails w1,
         load_trail_data w = (Ok trails, w1) ->
         load_trail_data w1 = (Ok trails, w1)))
  /\ (unusable_source w ->
      exists w',
        load_trail_data w = (Ok [], w')
        /\ file w' = file w
        /\ _data_cache w' = _data_cache w
        /\ _cache_timestamp w' = _cache_timestamp w).
Proof.
  split.
  - intros Hclean. split.
    + intros f cached t Hf Hc Ht Heq. apply (load_fresh w f); auto.
      unfold fresh_cache. rewrite Hc, Ht. simpl. now rewrite Heq.
    + intros trails w1 H. unfold loads_cleanly in Hclean.
      destruct (file w) as [f|] eqn:Hf.
      * destruct (fresh_cache w (mtime f)) as [cached|] eqn:Hc.
        -- rewrite (load_fresh w f cached Hf Hc) in H. inversion H; subst.
           apply (load_fresh w1 f); assumption.
        -- destruct Hclean as [Hn|[src Hs]]; [congruence|].
           destruct (load_stale w f src Hf Hc Hs)
             as (w' & Hl & Hf' & Hc' & Ht' & _).
           rewrite Hl in H. inversion H; subst. clear H.
           apply (load_fresh w1 f); [congruence|].
           unfold fresh_cache. rewrite Hc', Ht'. now rewrite timestamp_eq_refl.
      * unfold load_trail_data, load_try in *. rewrite Hf in H.
        inversion H; subst. rewrite Hf. reflexivity.
  - unfold unusable_source. destruct (file w) as [f|] eqn:Hf.
    + intros [Hc Hu]. unfold load_trail_data, load_try. rewrite Hf, Hc.
      destruct (reload_unusable f w Hu) as (e & w' & Hr & H1 & H2 & H3 & _).
      exists w'. rewrite Hr, load_except_ok.
      split; [reflexivity|]. split; [congruence|]. split; assumption.
    + intros _. exists w. unfold load_trail_data, load_try. rewrite Hf.
      repeat split; auto.
Qed.

(** *** [advanced_search] *)

(** C2: whatever was loaded and whatever the criteria, supplied or not,
    [advanced_search] returns the empty list: its loop runs over the
    accumulator [filtered_trails], which is empty when the loop starts. *)
Theorem advanced_search_always_empty (fuel : nat)
    (region difficulty best_season : option string) (w : World) :
  exists trails_data w',
    load_trail_data w = (Ok trails_data, w')
    /\ advanced_search (S fuel) region difficulty best_season w
       = Some (Ok [], w').
Proof.
  destruct (load_trail_data_ok w) as (trails & w' & Hl).
  exists trails, w'. split; [assumption|].
  unfold advanced_search. rewrite Hl. reflexivity.
Qed.

(** *** What the loader keeps *)

Lemma kept_inv (src : list json) :
  forall clock tick index r,
    In r (kept clock tick index src) ->
    exists i d now,
      nth_error src i = Some (JDict d)
      /\ truthy (dict_get "id" JNull d) = true
      /\ r = JDict (stamp now (index + i) d).
Proof.
  induction src as [|t rest IH]; intros clock tick index r Hin; simpl in Hin.
  - contradiction.
  - assert (Hrest : forall tk,
              In r (kept clock tk (S index) rest) ->
              exists i d now,
                nth_error (t :: rest) i = Some (JDict d)
                /\ truthy (dict_get "id" JNull d) = true
                /\ r = JDict (stamp now (index + i) d)).
    { intros tk H. destruct (IH _ _ _ _ H) as (i & d & now & Hn & Ht & Hr).
      exists (S i), d, now. simpl. repeat split; auto.
      rewrite Hr. do 2 f_equal. lia. }
    destruct t; eauto.
    destruct (truthy (dict_get "id" JNull d)) eqn:Ht; eauto.
    destruct Hin as [Hr|Hin]; eauto.
    exists 0%nat, d, (clock tick). simpl. repeat split; auto.
    rewrite <- Hr. do 2 f_equal. lia.
Qed.

Lemma kept_complete (src : list json) :
  forall clock tick index i d,
    nth_error src i = Some (JDict d) ->
    truthy (dict_get "id" JNull d) = true ->
    exists now, In (JDict (stamp now (index + i) d)) (kept clock tick index src).
Proof.
  induction src as [|t rest IH]; intros clock tick index i d Hn Ht.
  - destruct i; discriminate.
  - destruct i as [|i]; simpl in Hn.
    + inversion Hn; subst. simpl. rewrite Ht. exists (clock tick).
      left. do 2 f_equal. lia.
    + assert (Hrest : forall tk,
                exists now,
                  In (JDict (stamp now (index + S i) d))
                     (kept clock tk (S index) rest)).
      { intros tk. destruct (IH clock tk (S index) i d Hn Ht) as (now & H).
        exists now. replace (index + S i)%nat with (S index + i)%nat by lia.
        exact H. }
      simpl. destruct t; auto.
      destruct (truthy (dict_get "id" JNull d0)); auto.
      destruct (Hrest (S tick)) as (now & H). exists now. now right.
Qed.

(** The stamped positions grow along the kept list. *)
Lemma kept_sorted (src : list json) :
  forall clock tick index k1 k2 d1 d2 i1 i2,
    (k1 < k2)%nat ->
    nth_error (kept clock tick index src) k1 = Some (JDict d1) ->
    nth_error (kept clock tick index src) k2 = Some (JDict d2) ->
    dict_get "_index" JNull d1 = JInt i1 ->
    dict_get "_index" JNull d2 = JInt i2 ->
    i1 < i2.
Proof.
  induction src as [|t rest IH];
    intros clock tick index k1 k2 d1 d2 i1 i2 Hlt H1 H2 E1 E2; simpl in H1, H2.
  - destruct k1; discriminate.
  - destruct t; eauto.
    destruct (truthy (dict_get "id" JNull d)); eauto.
    destruct k2 as [|k2]; [lia|]. simpl in H2.
    destruct k1 as [|k1]; simpl in H1.
    + inversion H1; subst d1. rewrite dict_get_stamp_index in E1.
      apply nth_error_In in H2.
      destruct (kept_inv _ _ _ _ _ H2) as (i & d' & now & _ & _ & Hr).
      inversion Hr; subst d2. rewrite dict_get_stamp_index in E2.
      inversion E1. inversion E2. lia.
    + apply (IH clock (S tick) (S index) k1 k2 d1 d2 i1 i2); auto; lia.
Qed.

Lemma kept_loaded_from (clock : nat -> string) (tick : nat) (src : list json) :
  loaded_from src (kept clock tick 0 src).
Proof.
  unfold loaded_from. repeat split.
  - intros r Hin. destruct (kept_inv _ _ _ _ _ Hin) as (i & d & now & _ & Ht & Hr).
    exists (stamp now (0 + i) d). split; auto.
    rewrite dict_get_stamp; auto; discriminate.
  - intros i d Hn Ht. apply (kept_complete src clock tick 0 i d Hn Ht).
  - intros r Hin. destruct (kept_inv _ _ _ _ _ Hin) as (i & d & now & Hn & _ & Hr).
    exists i, d, now. repeat split; auto. apply dict_get_stamp_index.
  - intros. eapply kept_sorted; eauto.
Qed.

Lemma loaded_from_nil : loaded_from [] [].
Proof. apply (kept_loaded_from (fun _ => "") 0 []). Qed.

(** Either the file holds a list of records, or reading it fails. *)
Lemma source_cases (f : File) :
  (exists src, source_list f src)
  \/ match content f with
     | Raise _ => True
     | Ok (JDict top) => isinstance_list (dict_get "eco_trails" JNull top) = false
     | Ok _ => True
     end.
Proof.
  unfold source_list. destruct (content f) as [raw|e]; auto.
  destruct raw; auto.
  destruct (dict_get "eco_trails" JNull d) eqn:E; auto.
  left. eauto.
Qed.

(** A load that reads an unusable file returns the empty list and leaves
    the cache as it was. *)
Lemma load_unusable (w : World) (f : File) :
  file w = Some f -> fresh_cache w (mtime f) = None ->
  match content f with
  | Raise _ => True
  | Ok (JDict top) => isinstance_list (dict_get "eco_trails" JNull top) = false
  | Ok _ => True
  end ->
  exists w',
    load_trail_data w = (Ok [], w')
    /\ file w' = file w
    /\ _data_cache w' = _data_cache w
    /\ _cache_timestamp w' = _cache_timestamp w
    /\ reads w' = S (reads w).
Proof.
  intros Hf Hc Hu. unfold load_trail_data, load_try. rewrite Hf, Hc.
  destruct (reload_unusable f w Hu) as (e & w' & Hr & H1 & H2).
  exists w'. rewrite Hr, load_except_ok.
  split; [reflexivity|]. split; [congruence|exact H2].
Qed.

(** C6: every collection [load_trail_data] returns was built by the loader
    from some source list [src]: each of its records is an object with a
    truthy [id]; every object of [src] with a truthy [id] is in it, with or
    without a name; each record carries in [_index] its position in [src];
    and the records follow the order of [src].  When the call reads the
    file, [src] is the file's [eco_trails]. *)
Theorem load_collection_invariant (w : World) (trails : list json) (w1 : World) :
  well_cached w ->
  load_trail_data w = (Ok trails, w1) ->
  (exists src, loaded_from src trails)
  /\ well_cached w1
  /\ (forall f src,
        file w = Some f -> fresh_cache w (mtime f) = None ->
        source_list f src -> loaded_from src trails).
Proof.
  intros Hwc Hl.
  destruct (file w) as [f|] eqn:Hf.
  - destruct (fresh_cache w (mtime f)) as [cached|] eqn:Hc.
    + rewrite (load_fresh w f cached Hf Hc) in Hl. inversion Hl; subst.
      split; [|split; [assumption|]].
      * apply Hwc. unfold fresh_cache in Hc.
        destruct (_data_cache w1); [|discriminate].
        destruct (timestamp_eq (_cache_timestamp w1) (mtime f)); congruence.
      * intros f' src' Hf' Hc'. inversion Hf'; subst. congruence.
    + destruct (source_cases f) as [[src Hs]|Hu].
      * destruct (load_stale w f src Hf Hc Hs) as (w' & Hl' & _ & Hd & _).
        rewrite Hl' in Hl. inversion Hl; subst.
        split; [|split].
        -- exists src. apply kept_loaded_from.
        -- intros cached Hcached. rewrite Hd in Hcached.
           inversion Hcached; subst. exists src. apply kept_loaded_from.
        -- intros f' src' Hf' _ (top' & Ht' & Hs').
           inversion Hf'; subst f'. destruct Hs as (top & Ht & Hs).
           assert (src' = src) by congruence. subst.
           apply kept_loaded_from.
      * destruct (load_unusable w f Hf Hc Hu) as (w' & Hl' & _ & Hd & _).
        rewrite Hl' in Hl. inversion Hl; subst.
        split; [|split].
        -- exists []. apply loaded_from_nil.
        -- intros cached Hcached. apply Hwc. congruence.
        -- intros f' src' Hf' _ (top' & Ht' & Hs'). inversion Hf'; subst f'.
           exfalso. rewrite Ht' in Hu. rewrite Hs' in Hu. discriminate.
  - unfold load_trail_data, load_try in Hl. rewrite Hf in Hl.
    inversion Hl; subst. split; [|split; [assumption|]].
    + exists []. apply loaded_from_nil.
    + intros f src Hf'. discriminate.
Qed.

(** *** Lookup by identifier *)

Lemma py_eq_str_true (o : json) (s : string) :
  py_eq_str o s = true <-> o = JStr s.
Proof.
  destruct o; simpl; split; try discriminate.
  - intros H. apply String.eqb_eq in H. now subst.
  - intros H. inversion H. apply String.eqb_refl.
Qed.

Lemma truthy_nonempty_str (s : string) : s <> "" -> truthy (JStr s) = true.
Proof.
  intros H. simpl. destruct (String.eqb s "") eqn:E; auto.
  apply String.eqb_eq in E. contradiction.
Qed.

(** The scan of [get_trail_by_id] over a loaded list finds the record of
    the first source element whose [id] is the string sought. *)
Lemma find_by_id_kept (tid : string) (src : list json) :
  tid <> "" ->
  forall clock tick index,
    ((forall i d, nth_error src i = Some (JDict d) ->
                  dict_get "id" JNull d <> JStr tid)
     /\ find_by_id tid (kept clock tick index src) = Ok None)
    \/ (exists k d now,
          nth_error src k = Some (JDict d)
          /\ dict_get "id" JNull d = JStr tid
          /\ (forall k' d', (k' < k)%nat -> nth_error src k' = Some (JDict d') ->
                            dict_get "id" JNull d' <> JStr tid)
          /\ find_by_id tid (kept clock tick index src)
             = Ok (Some (JDict (stamp now (index + k) d)))).
Proof.
  intros Htid. induction src as [|t rest IH]; intros clock tick index.
  - left. split; [|reflexivity]. intros i d H. destruct i; discriminate.
  - assert (Hskip : forall tk,
              (forall d, t = JDict d -> dict_get "id" JNull d <> JStr tid) ->
              ((forall i d, nth_error (t :: rest) i = Some (JDict d) ->
                            dict_get "id" JNull d <> JStr tid)
               /\ find_by_id tid (kept clock tk (S index) rest) = Ok None)
              \/ (exists k d now,
                    nth_error (t :: rest) k = Some (JDict d)
                    /\ dict_get "id" JNull d = JStr tid
                    /\ (forall k' d', (k' < k)%nat ->
                          nth_error (t :: rest) k' = Some (JDict d') ->
                          dict_get "id" JNull d' <> JStr tid)
                    /\ find_by_id tid (kept clock tk (S index) rest)
                       = Ok (Some (JDict (stamp now (index + k) d))))).
    { intros tk Hne. destruct (IH clock tk (S index)) as [[Hall Hf]|Hex].
      - left. split; auto. intros i d H. destruct i as [|i]; simpl in H.
        + inversion H. now apply Hne.
        + now apply (Hall i).
      - right. destruct Hex as (k & d & now & Hn & Hid & Hfirst & Hf).
        exists (S k), d, now. simpl. repeat split; auto.
        + intros k' d' Hlt H. destruct k' as [|k']; simpl in H.
          * inversion H. now apply Hne.
          * apply (Hfirst k'); auto. lia.
        + rewrite Hf. do 4 f_equal. lia. }
    simpl. destruct t; try (apply Hskip; discriminate).
    destruct (truthy (dict_get "id" JNull d)) eqn:Ht.
    + simpl. rewrite dict_get_stamp by discriminate.
      destruct (py_eq_str (dict_get "id" JNull d) tid) eqn:E.
      * right. exists 0%nat, d, (clock tick). simpl.
        apply py_eq_str_true in E. repeat split; auto.
        -- intros k' d' Hlt. lia.
        -- do 4 f_equal. lia.
      * apply Hskip. intros d0 Hd0 Hid. inversion Hd0; subst d0.
        apply py_eq_str_true in Hid. congruence.
    + apply Hskip. intros d0 Hd0 Hid. inversion Hd0; subst d0.
      rewrite Hid, (truthy_nonempty_str tid Htid) in Ht. discriminate.
Qed.

(** C10: the loader does not make ids unique.  When the file's list holds
    two objects with the same non-empty string [id] at positions [i < j],
    both records are in the loaded collection, and [get_trail_by_id]
    returns the record of the first source element with that id, hence
    one at a position not after [i] and before [j]. *)
Theorem duplicate_ids_first_wins (w : World) (f : File) (src : list json)
    (i j : nat) (di dj : pydict) (tid : string) :
  file w = Some f -> fresh_cache w (mtime f) = None -> source_list f src ->
  (i < j)%nat ->
  nth_error src i = Some (JDict di) -> nth_error src j = Some (JDict dj) ->
  dict_get "id" JNull di = JStr tid -> dict_get "id" JNull dj = JStr tid ->
  tid <> "" ->
  exists trails w1,
    load_trail_data w = (Ok trails, w1)
    /\ (exists ni nj, In (JDict (stamp ni i di)) trails
                      /\ In (JDict (stamp nj j dj)) trails)
    /\ (exists k d now,
          get_trail_by_id tid w = (Ok (Some (JDict (stamp now k d))), w1)
          /\ In (JDict (stamp now k d)) trails
          /\ nth_error src k = Some (JDict d)
          /\ dict_get "id" JNull (stamp now k d) = JStr tid
          /\ dict_get "_index" JNull (stamp now k d) = JInt (Z.of_nat k)
          /\ (k <= i)%nat /\ (k < j)%nat
          /\ (forall k' d', (k' < k)%nat -> nth_error src k' = Some (JDict d') ->
                            dict_get "id" JNull d' <> JStr tid)).
Proof.
  intros Hf Hc Hs Hij Hi Hj Hdi Hdj Htid.
  destruct (load_stale w f src Hf Hc Hs) as (w1 & Hl & _).
  exists (kept (wall w) (ticks w) 0 src), w1. split; [exact Hl|]. split.
  - assert (Hti : truthy (dict_get "id" JNull di) = true)
      by (rewrite Hdi; now apply truthy_nonempty_str).
    assert (Htj : truthy (dict_get "id" JNull dj) = true)
      by (rewrite Hdj; now apply truthy_nonempty_str).
    destruct (kept_complete src (wall w) (ticks w) 0 i di Hi Hti) as (ni & Hni).
    destruct (kept_complete src (wall w) (ticks w) 0 j dj Hj Htj) as (nj & Hnj).
    exists ni, nj. auto.
  - destruct (find_by_id_kept tid src Htid (wall w) (ticks w) 0%nat)
      as [[Hall _]|(k & d & now & Hk & Hid & Hfirst & Hfind)].
    + exfalso. apply (Hall i di Hi Hdi).
    + simpl in Hfind. exists k, d, now.
      assert (Hki : (k <= i)%nat).
      { destruct (Nat.le_gt_cases k i) as [|Hgt]; auto.
        exfalso. apply (Hfirst i di Hgt Hi Hdi). }
      assert (Hfound : find_by_id tid (kept (wall w) (ticks w) 0 src)
                       = Ok (Some (JDict (stamp now k d)))) by exact Hfind.
      repeat split; auto.
      * unfold get_trail_by_id. rewrite (truthy_nonempty_str tid Htid). simpl.
        unfold bind_py, lift. rewrite Hl, Hfound. reflexivity.
      * clear Hfind. revert Hfound.
        generalize (kept (wall w) (ticks w) 0 src) as l.
        induction l as [|x l IHl]; simpl; [discriminate|].
        destruct (py_get x "id" JNull) as [v|e]; simpl; [|discriminate].
        destruct (py_eq_str v tid).
        -- intros H. inversion H. now left.
        -- intros H. right. now apply IHl.
      * rewrite dict_get_stamp by discriminate. exact Hid.
      * apply dict_get_stamp_index.
      * lia.
Qed.

(** *** Coordinates *)

Lemma py_between_in_bounds (x : json) (lo hi : Z) :
  isinstance_number x = true ->
  py_between (JInt lo) x (JInt hi) = Ok (in_bounds x lo hi).
Proof.
  intros Hx. unfold py_between, py_le, in_bounds.
  destruct x; try discriminate; cbn [number_value bind];
    match goal with
    | |- context [float_le ?a ?b && _] => destruct (float_le a b); reflexivity
    end.
Qed.

Lemma in_bounds_number (x : json) (lo hi : Z) :
  in_bounds x lo hi = true -> isinstance_number x = true.
Proof. unfold in_bounds. destruct x; simpl; auto. Qed.

(** The bounds test holds exactly of a finite number within the bounds. *)
Lemma in_bounds_spec (x : json) (lo hi : Z) :
  in_bounds x lo hi = true
  <-> exists q, number_value x = Some (FFin q)
                /\ (inject_Z lo <= q)%Q /\ (q <= inject_Z hi)%Q.
Proof.
  unfold in_bounds. split.
  - destruct (number_value x) as [[| |q]|]; simpl; try discriminate.
    + destruct negative; discriminate.
    + intros H. apply andb_prop in H. destruct H as [H1 H2].
      exists q. repeat split; auto; now apply Qle_bool_iff.
  - intros (q & Hq & H1 & H2). rewrite Hq. simpl.
    apply andb_true_intro. split; now apply Qle_bool_iff.
Qed.

Lemma has_valid_coordinates_of_numbers (c : pydict) :
  (latitude <- py_get (JDict c) "lat" JNull ;;
   longitude <- py_get (JDict c) "lng" JNull ;;
   if negb (isinstance_number latitude) || negb (isinstance_number longitude)
   then Ok false else
   lat_ok <- py_between (JInt (-90)) latitude (JInt 90) ;;
   if negb lat_ok then Ok false else
   lng_ok <- py_between (JInt (-180)) longitude (JInt 180) ;;
   if negb lng_ok then Ok false else Ok true)
  = Ok match dict_find "lat" c, dict_find "lng" c with
       | Some lat, Some lng => in_bounds lat (-90) 90 && in_bounds lng (-180) 180
       | _, _ => false
       end.
Proof.
  simpl. unfold dict_get.
  destruct (dict_find "lat" c) as [lat|]; [|reflexivity].
  destruct (dict_find "lng" c) as [lng|].
  - destruct (isinstance_number lat) eqn:Hlat; simpl.
    + destruct (isinstance_number lng) eqn:Hlng; simpl.
      * rewrite (py_between_in_bounds _ _ _ Hlat). simpl.
        destruct (in_bounds lat (-90) 90); simpl; [|reflexivity].
        rewrite (py_between_in_bounds _ _ _ Hlng). simpl.
        now destruct (in_bounds lng (-180) 180).
      * destruct (in_bounds lng (-180) 180) eqn:E.
        -- apply in_bounds_number in E. congruence.
        -- now rewrite andb_false_r.
    + destruct (in_bounds lat (-90) 90) eqn:E; [|reflexivity].
      apply in_bounds_number in E. congruence.
  - destruct (isinstance_number lat); reflexivity.
Qed.

Lemma dict_get_some (key : string) (dflt v : json) (d : pydict) :
  dict_find key d = Some v -> dict_get key dflt d = v.
Proof. intros H. unfold dict_get. now rewrite H. Qed.

Lemma dict_get_none (key : string) (dflt : json) (d : pydict) :
  dict_find key d = None -> dict_get key dflt d = dflt.
Proof. intros H. unfold dict_get. now rewrite H. Qed.

(** The [except] clause of [_has_valid_coordinates] at work. *)
Lemma has_valid_coordinates_caught (trail : json) (b : bool) :
  has_valid_coordinates_try trail = Ok b
  \/ (has_valid_coordinates_try trail = Raise AttributeError /\ b = false) ->
  _has_valid_coordinates trail = Ok b.
Proof.
  unfold _has_valid_coordinates. intros [H|[H Hb]]; rewrite H; congruence.
Qed.

(** [_has_valid_coordinates] never raises, and on a record it decides
    whether the coordinates are present, numeric and in bounds. *)
Lemma has_valid_coordinates_record (d : pydict) :
  _has_valid_coordinates (JDict d) = Ok (coordinates_valid d).
Proof.
  apply has_valid_coordinates_caught.
  unfold has_valid_coordinates_try, coordinates_valid.
  cbn [py_get bind].
  destruct (dict_find "location" d) as [location|] eqn:El.
  - rewrite (dict_get_some _ _ _ _ El).
    destruct location; try (right; split; reflexivity).
    left. cbn [py_get bind].
    destruct (dict_find "coordinates" d0) as [coordinates|] eqn:Ec.
    + rewrite (dict_get_some _ _ _ _ Ec).
      destruct coordinates; try reflexivity.
      cbn [isinstance_dict negb]. apply has_valid_coordinates_of_numbers.
    + rewrite (dict_get_none _ _ _ Ec). reflexivity.
  - rewrite (dict_get_none _ _ _ El). left. reflexivity.
Qed.

Lemma has_valid_coordinates_other (o : json) :
  isinstance_dict o = false -> _has_valid_coordinates o = Ok false.
Proof. destruct o; simpl; try discriminate; reflexivity. Qed.

(** *** The validator *)

Lemma dict_get_present (p : json -> bool) (key : string) (dflt : json)
    (d : pydict) :
  p dflt = true ->
  p (dict_get key dflt d) = if_present p (dict_find key d).
Proof. intros H. unfold dict_get. now destruct (dict_find key d). Qed.

Lemma dict_get_truthy (key : string) (d : pydict) :
  truthy (dict_get key JNull d) = present_and truthy (dict_find key d).
Proof. unfold dict_get. now destruct (dict_find key d). Qed.

(** C7: on every record [validate_trail_data] returns a pair
    [(valid, errors)]; [errors] holds, in the order of the six rules (id,
    name, coordinates, location, trail_details, best_season), the message
    of each rule that fails, no rule hiding another; and [valid] is true
    exactly when [errors] is empty. *)
Theorem validate_trail_data_rules (d : pydict) :
  exists valid errors,
    validate_trail_data (JDict d) = Ok (valid, errors)
    /\ errors = failed_messages (validation_rules d)
    /\ (valid = true <-> errors = [])
    /\ (valid = true <-> forallb fst (validation_rules d) = true).
Proof.
  unfold validate_trail_data. simpl required_loop. simpl bind.
  rewrite has_valid_coordinates_record. simpl bind.
  rewrite !dict_get_truthy.
  rewrite (dict_get_present isinstance_dict "location") by reflexivity.
  rewrite (dict_get_present isinstance_dict "trail_details") by reflexivity.
  rewrite (dict_get_present isinstance_list "best_season") by reflexivity.
  unfold validation_rules, failed_messages.
  destruct (present_and truthy (dict_find "id" d));
    destruct (present_and truthy (dict_find "name" d));
    destruct (coordinates_valid d);
    destruct (if_present isinstance_dict (dict_find "location" d));
    destruct (if_present isinstance_dict (dict_find "trail_details" d));
    destruct (if_present isinstance_list (dict_find "best_season" d));
    cbn [negb app filter map fst snd forallb andb length Nat.eqb];
    do 2 eexists; (split; [reflexivity|]); (split; [reflexivity|]);
    split; split; intros H; try reflexivity; discriminate H.
Qed.

(** *** Keyword search *)

Lemma str_in_empty_hay (nq : string) : nq <> "" -> str_in nq "" = false.
Proof. destruct nq; [congruence|reflexivity]. Qed.

Lemma py_get_dict (d : pydict) (key : string) (dflt : json) :
  py_get (JDict d) key dflt = Ok (dict_get key dflt d).
Proof. reflexivity. Qed.

(** Reading a text field that is absent or a string, and testing it. *)
Lemma text_field_step {A : Type} (nq key : string) (d : pydict)
    (X Y : result A) :
  nq <> "" -> if_present isinstance_str (dict_find key d) = true ->
  (v <- py_get (JDict d) key (JStr "") ;;
   s <- py_lower v ;;
   if str_in nq s then X else Y)
  = if text_contains nq (dict_find key d) then X else Y.
Proof.
  intros Hnq Ht. cbn [py_get bind]. unfold dict_get.
  destruct (dict_find key d) as [v|]; simpl in *.
  - destruct v; try discriminate. reflexivity.
  - now rewrite lower_empty, (str_in_empty_hay nq Hnq).
Qed.

Lemma any_keyword_typed (nq : string) (l : list json) :
  forallb isinstance_str l = true ->
  any_keyword nq l = Ok (existsb (fun k => text_contains nq (Some k)) l).
Proof.
  induction l as [|k l IH]; simpl; intros H; [reflexivity|].
  apply andb_prop in H. destruct H as [Hk Hl].
  destruct k; try discriminate. simpl.
  destruct (str_in nq (lower s)); simpl; auto.
Qed.

Lemma keywords_step {A : Type} (nq : string) (d : pydict) (X Y : result A) :
  if_present list_of_str (dict_find "keywords" d) = true ->
  (location_keywords <- py_get (JDict d) "keywords" (JList []) ;;
   keywords <- py_iter location_keywords ;;
   found <- any_keyword nq keywords ;;
   if found then X else Y)
  = if keyword_contains nq (dict_find "keywords" d) then X else Y.
Proof.
  intros Ht. cbn [py_get bind]. unfold dict_get.
  destruct (dict_find "keywords" d) as [v|]; simpl in *.
  - destruct v; try discriminate. simpl.
    now rewrite (any_keyword_typed nq l Ht).
  - reflexivity.
Qed.

Lemma coordinates_valid_location (d : pydict) :
  coordinates_valid d = true ->
  exists location, dict_find "location" d = Some (JDict location).
Proof.
  unfold coordinates_valid.
  destruct (dict_find "location" d) as [[]|]; try discriminate. eauto.
Qed.

(** A record without valid coordinates is passed over. *)
Lemma search_step_invalid (nq : string) (trail : json) (acc : list json) :
  _has_valid_coordinates trail = Ok false -> search_step nq trail acc = Ok acc.
Proof. intros H. unfold search_step. now rewrite H. Qed.

(** On a record with valid coordinates and text fields of the right types
    the chain of tests is the disjunction of the five field tests. *)
Lemma search_step_typed (nq : string) (d : pydict) (acc : list json) :
  nq <> "" -> coordinates_valid d = true -> text_typed d = true ->
  search_step nq (JDict d) acc
  = Ok (if search_matches nq d then acc ++ [JDict d] else acc).
Proof.
  intros Hnq Hv Ht. unfold text_typed in Ht.
  repeat (apply andb_prop in Ht; let H := fresh "T" in destruct Ht as [Ht H]).
  destruct (coordinates_valid_location d Hv) as (location & El).
  rewrite El in *. simpl sub_field in *.
  unfold search_step, search_matches.
  rewrite has_valid_coordinates_record, Hv. cbn [bind negb].
  rewrite El. simpl sub_field.
  rewrite (text_field_step nq "name" d) by assumption.
  destruct (text_contains nq (dict_find "name" d)); [reflexivity|].
  rewrite (text_field_step nq "description" d) by assumption.
  destruct (text_contains nq (dict_find "description" d)); [reflexivity|].
  rewrite !(py_get_dict d "location"), !(dict_get_some _ _ _ _ El).
  cbn [bind orb].
  rewrite (text_field_step nq "region" location) by assumption.
  destruct (text_contains nq (dict_find "region" location)); [reflexivity|].
  rewrite (keywords_step nq location) by assumption.
  destruct (keyword_contains nq (dict_find "keywords" location)); [reflexivity|].
  rewrite (py_get_dict d "trail_details"). cbn [bind orb].
  unfold dict_get at 1.
  destruct (dict_find "trail_details" d) as [details|]; simpl sub_field in *.
  - destruct details; try discriminate.
    rewrite (text_field_step nq "difficulty") by assumption.
    now destruct (text_contains nq (dict_find "difficulty" d0)).
  - rewrite (text_field_step nq "difficulty" []) by auto. reflexivity.
Qed.

Lemma search_loop_typed (nq : string) (trails : list json) :
  nq <> "" ->
  (forall d, In (JDict d) trails -> coordinates_valid d = true ->
             text_typed d = true) ->
  forall acc, search_loop nq trails acc = Ok (acc ++ search_spec nq trails).
Proof.
  intros Hnq. induction trails as [|t rest IH]; intros Hty acc; simpl.
  - now rewrite app_nil_r.
  - assert (Hrest : forall d, In (JDict d) rest -> coordinates_valid d = true ->
                              text_typed d = true)
      by (intros d Hin; apply Hty; now right).
    destruct t as [| | | | | |d];
      try (rewrite search_step_invalid
             by (apply has_valid_coordinates_other; reflexivity);
           simpl; now apply IH).
    destruct (coordinates_valid d) eqn:Hv.
    + rewrite (search_step_typed nq d acc Hnq Hv) by (apply Hty; auto; now left).
      simpl. rewrite (IH Hrest).
      destruct (search_matches nq d); simpl; [|reflexivity].
      now rewrite <- app_assoc.
    + rewrite search_step_invalid
        by (rewrite has_valid_coordinates_record; now rewrite Hv).
      simpl. now apply IH.
Qed.

(** Whatever the records look like, a record that [search_trails] returns
    passed the coordinate check. *)
Lemma search_step_inv (nq : string) (trail : json) (acc acc' : list json) :
  search_step nq trail acc = Ok acc' ->
  acc' = acc
  \/ (acc' = acc ++ [trail] /\ _has_valid_coordinates trail = Ok true).
Proof.
  unfold search_step.
  destruct (_has_valid_coordinates trail) as [[|]|e]; simpl;
    [|intros H; inversion H; now left|discriminate].
  repeat match goal with
         | |- (bind ?c _ = Ok _) -> _ =>
             destruct c; simpl; [|discriminate]
         | |- ((if ?b then _ else _) = Ok _) -> _ =>
             destruct b; [intros H; inversion H; now right|]
         end.
  intros H. inversion H. now left.
Qed.

Lemma search_loop_inv (nq : string) (trails : list json) :
  forall acc l,
    search_loop nq trails acc = Ok l ->
    forall t, In t l ->
              In t acc \/ (In t trails /\ _has_valid_coordinates t = Ok true).
Proof.
  induction trails as [|x rest IH]; simpl; intros acc l H t Hin.
  - inversion H; subst. now left.
  - destruct (search_step nq x acc) as [acc'|e] eqn:Hs; simpl in H;
      [|discriminate].
    destruct (IH _ _ H t Hin) as [Ha|[Hr Hv]].
    + destruct (search_step_inv _ _ _ _ Hs) as [E|[E Hv]]; subst acc'.
      * now left.
      * apply in_app_or in Ha. destruct Ha as [Ha|[Ha|[]]]; [now left|].
        subst x. right. split; [now left|assumption].
    + right. split; [now right|assumption].
Qed.

Lemma search_results_have_coordinates (query : string) (w w' : World)
    (l : list json) :
  search_trails query w = (Ok l, w') ->
  forall t, In t l -> _has_valid_coordinates t = Ok true.
Proof.
  unfold search_trails.
  destruct (negb (truthy (JStr query)));
    [intros H; inversion H; contradiction|].
  destruct (negb (truthy (JStr (strip (lower query)))));
    [intros H; inversion H; contradiction|].
  unfold bind_py, lift.
  destruct (load_trail_data w) as [[trails|e] w1]; [|discriminate].
  intros H t Hin. inversion H as [[Hl Hw]].
  destruct (search_loop_inv _ _ _ _ Hl t Hin) as [[]|[_ Hv]]. exact Hv.
Qed.

(** C3 (amended): for a query that is not empty and whose lower-cased,
    trimmed form is not empty either, and a loaded collection whose
    records with valid coordinates have text fields of the types of the
    data model, [search_trails] returns, in load order and each record at
    most once, exactly the records that pass the coordinate check and of
    which the name, the description, the region, some keyword or the
    difficulty contains the normalized query; a record without valid
    coordinates is not among them.  A query whose lower-cased, trimmed
    form is empty (a query made only of whitespace) returns the empty list
    without loading: the world is left as it was. *)
Theorem search_trails_correct (query : string) (w : World)
    (trails : list json) (w1 : World) :
  load_trail_data w = (Ok trails, w1) ->
  query <> "" ->
  (strip (lower query) <> "" ->
   (forall d, In (JDict d) trails -> coordinates_valid d = true ->
              text_typed d = true) ->
   search_trails query w = (Ok (search_spec (strip (lower query)) trails), w1)
   /\ (forall t, In t (search_spec (strip (lower query)) trails) ->
                 exists d, t = JDict d /\ In t trails
                           /\ coordinates_valid d = true))
  /\ (strip (lower query) = "" -> search_trails query w = (Ok [], w)).
Proof.
  intros Hl Hq. split.
  - intros Hnq Hty. split.
    + unfold search_trails. cbv zeta.
      rewrite (truthy_nonempty_str query Hq),
              (truthy_nonempty_str _ Hnq). cbn [negb].
      unfold bind_py, lift. rewrite Hl.
      now rewrite (search_loop_typed _ trails Hnq Hty []).
    + intros t Hin. unfold search_spec in Hin. apply filter_In in Hin.
      destruct Hin as [Hin Hp]. destruct t; try discriminate.
      apply andb_prop in Hp. destruct Hp as [Hv _]. eauto.
  - intros Hb. unfold search_trails. cbv zeta.
    rewrite (truthy_nonempty_str query Hq), Hb. reflexivity.
Qed.

(** *** Statistics *)

Lemma counts_set_sum (key : json) (c : counts) :
  sum_counts (counts_set key (counts_get key 0 c + 1) c) = sum_counts c + 1.
Proof.
  induction c as [|[k n] c IH]; simpl; [reflexivity|].
  destruct (key_eqb k key); simpl; lia.
Qed.

(** One more occurrence counted is one more in the sum of the counts. *)
Lemma count_incr_sum (key : json) (c c' : counts) :
  count_incr key c = Ok c' -> sum_counts c' = sum_counts c + 1.
Proof.
  unfold count_incr. destruct (hashable key); [|discriminate].
  intros H. inversion H. apply counts_set_sum.
Qed.

Lemma count_incr_hashable (key : json) (c : counts) :
  hashable key = true -> exists c', count_incr key c = Ok c'.
Proof. intros H. unfold count_incr. rewrite H. eauto. Qed.

Lemma count_seasons_sum (l : list json) :
  forall c c',
    count_seasons l c = Ok c' ->
    sum_counts c' = sum_counts c + Z.of_nat (length l).
Proof.
  induction l as [|s l IH]; simpl; intros c c' H.
  - inversion H. lia.
  - destruct (count_incr s c) as [c1|e] eqn:E; simpl in H; [|discriminate].
    rewrite (IH _ _ H), (count_incr_sum _ _ _ E). lia.
Qed.

Lemma count_seasons_hashable (l : list json) :
  forallb hashable l = true ->
  forall c, exists c', count_seasons l c = Ok c'.
Proof.
  induction l as [|s l IH]; simpl; intros H c; [eauto|].
  apply andb_prop in H. destruct H as [Hs Hl].
  destruct (count_incr_hashable s c Hs) as (c1 & E). rewrite E. simpl.
  now apply IH.
Qed.

(** The three sums after the loop. *)
Lemma stats_loop_sums (trails : list json) :
  forall rc dc sc rc' dc' sc',
    stats_loop trails rc dc sc = Ok (rc', dc', sc') ->
    sum_counts rc' = sum_counts rc + Z.of_nat (length trails)
    /\ sum_counts dc' = sum_counts dc + Z.of_nat (length trails)
    /\ sum_counts sc' = sum_counts sc + total_season_occurrences trails.
Proof.
  induction trails as [|t rest IH]; intros rc dc sc rc' dc' sc' H.
  - simpl in H. inversion H; subst. simpl. lia.
  - cbn [stats_loop] in H.
    destruct t as [| | | | | |d]; try discriminate.
    rewrite !py_get_dict in H. cbn [bind] in H.
    destruct (py_get (dict_get "location" (JDict []) d) "region"
                (JStr "Неизвестен регион")) as [region|e];
      cbn [bind] in H; [|discriminate].
    destruct (count_incr region rc) as [rc1|e] eqn:Er;
      cbn [bind] in H; [|discriminate].
    destruct (py_get (dict_get "trail_details" (JDict []) d) "difficulty"
                (JStr "Неопределена трудност")) as [difficulty|e];
      cbn [bind] in H; [|discriminate].
    destruct (count_incr difficulty dc) as [dc1|e] eqn:Ed;
      cbn [bind] in H; [|discriminate].
    assert (Hs : exists sc1,
               sum_counts sc1 = sum_counts sc + season_occurrences (JDict d)
               /\ stats_loop rest rc1 dc1 sc1 = Ok (rc', dc', sc')).
    { unfold season_occurrences.
      destruct (dict_get "best_season" (JList []) d) as [| | | | |l|];
        cbn [bind] in H;
        try (exists sc; split; [lia|exact H]).
      destruct (count_seasons l sc) as [sc1|e] eqn:Es;
        cbn [bind] in H; [|discriminate].
      exists sc1. split; [|exact H]. apply (count_seasons_sum _ _ _ Es). }
    destruct Hs as (sc1 & Hsum & Hrest).
    destruct (IH _ _ _ _ _ _ Hrest) as (Hr' & Hd' & Hs').
    apply count_incr_sum in Er. apply count_incr_sum in Ed.
    cbn [length total_season_occurrences fold_right].
    fold (total_season_occurrences rest).
    rewrite Nat2Z.inj_succ. lia.
Qed.

(** On records whose fields have usable types the loop does not raise. *)
Lemma stats_loop_typed (trails : list json) :
  (forall t, In t trails -> stats_typed t = true) ->
  forall rc dc sc, exists c, stats_loop trails rc dc sc = Ok c.
Proof.
  induction trails as [|t rest IH]; intros Hty rc dc sc.
  - simpl. eauto.
  - assert (Ht : stats_typed t = true) by (apply Hty; now left).
    assert (Hrest : forall t', In t' rest -> stats_typed t' = true)
      by (intros t' Hin; apply Hty; now right).
    destruct t as [| | | | | |d]; try discriminate.
    unfold stats_typed in Ht.
    repeat (apply andb_prop in Ht; let H := fresh "T" in destruct Ht as [Ht H]).
    cbn [stats_loop]. rewrite !py_get_dict. cbn [bind].
    assert (Hregion : exists region,
               py_get (dict_get "location" (JDict []) d) "region"
                 (JStr "Неизвестен регион") = Ok region
               /\ hashable region = true).
    { unfold dict_get at 1.
      destruct (dict_find "location" d) as [[]|]; try discriminate;
        simpl in *.
      - unfold dict_get. destruct (dict_find "region" d0); eauto.
      - eauto. }
    destruct Hregion as (region & -> & Hh). cbn [bind].
    destruct (count_incr_hashable region rc Hh) as (rc1 & ->). cbn [bind].
    assert (Hdiff : exists difficulty,
               py_get (dict_get "trail_details" (JDict []) d) "difficulty"
                 (JStr "Неопределена трудност") = Ok difficulty
               /\ hashable difficulty = true).
    { unfold dict_get at 1.
      destruct (dict_find "trail_details" d) as [[]|]; try discriminate;
        simpl in *.
      - unfold dict_get. destruct (dict_find "difficulty" d0); eauto.
      - eauto. }
    destruct Hdiff as (difficulty & -> & Hh'). cbn [bind].
    destruct (count_incr_hashable difficulty dc Hh') as (dc1 & ->). cbn [bind].
    assert (Hseasons : exists sc1,
               match dict_get "best_season" (JList []) d with
               | JList l => count_seasons l sc
               | _ => Ok sc
               end = Ok sc1).
    { unfold dict_get.
      destruct (dict_find "best_season" d) as [[]|]; simpl in *; eauto.
      now apply count_seasons_hashable. }
    destruct Hseasons as (sc1 & ->). cbn [bind].
    now apply IH.
Qed.

(** C8 (amended): for a loaded collection whose records have usable types
    in the fields the statistics read, [get_data_statistics] returns a
    report in which [total_trails] is the length of the collection, the
    difficulty counts (and the region counts) add up to [total_trails],
    each record counting once, under the default label when it has no
    difficulty, and the season counts add up to the number of seasons the
    records list, which exceeds [total_trails] as soon as records list
    several; for an empty collection the report is the zeroed one. *)
Theorem statistics_totals (w : World) (trails : list json) (w1 : World) :
  load_trail_data w = (Ok trails, w1) ->
  (forall t, In t trails -> stats_typed t = true) ->
  exists s w2,
    get_data_statistics w = (Ok s, w2)
    /\ total_trails s = Z.of_nat (length trails)
    /\ sum_counts (difficulties s) = total_trails s
    /\ sum_counts (regions s) = total_trails s
    /\ sum_counts (seasons s) = total_season_occurrences trails
    /\ (trails = [] -> s = empty_stats /\ w2 = w1).
Proof.
  intros Hl Hty. unfold get_data_statistics, bind_py. rewrite Hl.
  destruct trails as [|t rest].
  - simpl. exists empty_stats, w1. repeat split; reflexivity.
  - cbn [truthy negb]. unfold lift.
    destruct (stats_loop_typed (t :: rest) Hty [] [] []) as ([[rc dc] sc] & Hs).
    rewrite Hs. unfold datetime_now_isoformat.
    destruct (stats_loop_sums _ _ _ _ _ _ _ Hs) as (Hr & Hd & Hse).
    do 2 eexists. split; [reflexivity|]. cbn [total_trails difficulties regions seasons].
    simpl sum_counts in Hr, Hd, Hse.
    split; [reflexivity|]. split; [lia|]. split; [lia|]. split; [lia|].
    intros H. discriminate H.
Qed.

(** C9: [search_trails] is not total on what the loader accepts.  Each of
    four records (a keyword that is not a string; a name, a description, a
    difficulty that is not a string) is loaded and passes the coordinate
    check, and for every query that survives normalization the field
    matching raises [AttributeError] (the value has no [lower] method),
    which reaches the caller in place of a result list. *)
Theorem search_not_total (query : string) (r : json) :
  query <> "" ->
  strip (lower query) <> "" ->
  In r [odd_keywords; odd_name; odd_description; odd_difficulty] ->
  exists trails w1,
    load_trail_data (fresh_world (eco_file [r])) = (Ok trails, w1)
    /\ length trails = 1%nat
    /\ (forall t, In t trails -> _has_valid_coordinates t = Ok true)
    /\ search_trails query (fresh_world (eco_file [r]))
       = (Raise AttributeError, w1).
Proof.
  intros Hq Hnq Hin.
  unfold search_trails. cbv zeta.
  rewrite (truthy_nonempty_str query Hq), (truthy_nonempty_str _ Hnq).
  cbn [negb]. unfold bind_py, lift.
  set (nq := strip (lower query)) in *.
  simpl in Hin.
  destruct Hin as [<-|[<-|[<-|[<-|[]]]]];
    remember (load_trail_data _) as p eqn:E; vm_compute in E; subst p;
    (do 2 eexists; split; [reflexivity|]; split; [reflexivity|]; split;
     [ intros t [<-|[]]; vm_compute; reflexivity
     | cbn; rewrite ?lower_empty, ?(str_in_empty_hay nq Hnq); reflexivity ]).
Qed.

(** *** Substrings *)

Lemma prefix_app (n h : string) :
  String.prefix n h = true <-> exists b, h = (n ++ b)%string.
Proof.
  revert h. induction n as [|c n IH]; intros h; simpl.
  - destruct h; simpl; (split; [intros _; eexists; reflexivity|reflexivity]).
  - destruct h as [|c' h]; simpl.
    + split; [discriminate|]. intros (b & H). discriminate H.
    + destruct (ascii_dec c c') as [->|Hne].
      * rewrite IH. split; intros (b & H); exists b.
        -- now rewrite H.
        -- now inversion H.
      * split; [discriminate|]. intros (b & H). inversion H. congruence.
Qed.

Lemma str_in_eq (n h : string) :
  str_in n h
  = if String.prefix n h then true
    else match h with
         | EmptyString => false
         | String _ rest => str_in n rest
         end.
Proof. now destruct h. Qed.

(** [str_in needle hay] holds exactly when [needle] occurs in [hay]. *)
Lemma str_in_spec (n h : string) :
  str_in n h = true <-> exists a b, h = (a ++ n ++ b)%string.
Proof.
  induction h as [|c h IH]; rewrite str_in_eq.
  - destruct (String.prefix n "") eqn:E.
    + split; [intros _|reflexivity]. apply prefix_app in E. destruct E as (b & E).
      exists "", b. exact E.
    + split; [discriminate|]. intros (a & b & H).
      destruct a; simpl in H; [|discriminate].
      assert (P : String.prefix n "" = true) by (apply prefix_app; eauto).
      congruence.
  - destruct (String.prefix n (String c h)) eqn:E.
    + split; [intros _|reflexivity]. apply prefix_app in E. destruct E as (b & E).
      exists "", b. exact E.
    + rewrite IH. split.
      * intros (a & b & H). exists (String c a), b. simpl. now rewrite H.
      * intros (a & b & H). destruct a as [|c' a]; simpl in H.
        -- assert (P : String.prefix n (String c h) = true)
             by (apply prefix_app; eauto).
           congruence.
        -- inversion H. eauto.
Qed.

(** *** The body of the [advanced_search] loop *)

Lemma criterion_supplied (normalize : string -> string) (arg : option string) :
  supplied normalize arg ->
  criterion match arg with
            | Some s => if truthy (JStr s) then Some (normalize s) else None
            | None => None
            end
  = option_map normalize arg.
Proof.
  destruct arg as [s|]; simpl; [|reflexivity]. intros [Hs Hn].
  destruct (String.eqb s "") eqn:E; [apply String.eqb_eq in E; contradiction|].
  simpl. destruct (String.eqb (normalize s) "") eqn:E';
    [apply String.eqb_eq in E'; contradiction|reflexivity].
Qed.

(** Reading a text field of a sub-object and testing a criterion on it. *)
Lemma sub_field_test (term outer inner : string) (d : pydict) :
  term <> "" ->
  if_present isinstance_dict (dict_find outer d) = true ->
  if_present isinstance_str (sub_field inner (dict_find outer d)) = true ->
  (o <- py_get (JDict d) outer (JDict []) ;;
   v <- py_get o inner (JStr "") ;;
   s <- py_lower v ;;
   if negb (str_in term s) then Ok false else Ok true)
  = Ok (text_contains term (sub_field inner (dict_find outer d))).
Proof.
  intros Ht Ho Hi. cbn [py_get bind]. unfold dict_get at 1.
  assert (Hstep : forall d',
            if_present isinstance_str (dict_find inner d') = true ->
            (v <- py_get (JDict d') inner (JStr "") ;;
             s <- py_lower v ;;
             if negb (str_in term s) then Ok false else Ok true)
            = Ok (text_contains term (dict_find inner d'))).
  { intros d' H. cbn [py_get bind]. unfold dict_get.
    destruct (dict_find inner d') as [v|]; simpl in *.
    - destruct v; try discriminate. simpl. now destruct (str_in term (lower s)).
    - now rewrite lower_empty, (str_in_empty_hay term Ht). }
  destruct (dict_find outer d) as [o|]; simpl in *.
  - destruct o; try discriminate. now apply Hstep.
  - now apply (Hstep []).
Qed.

Lemma season_test (s : string) (d : pydict) :
  (trail_seasons <- py_get (JDict d) "best_season" (JList []) ;;
   match trail_seasons with
   | JList l => if negb (str_in_list s l) then Ok false else Ok true
   | _ => Ok false
   end)
  = Ok match dict_find "best_season" d with
       | Some (JList l) => str_in_list s l
       | _ => false
       end.
Proof.
  cbn [py_get bind]. unfold dict_get.
  destruct (dict_find "best_season" d) as [[]|]; try reflexivity.
  now destruct (str_in_list s l).
Qed.

(** X19: on a record of the data model's types, for criteria that are
    omitted or not blank, the body of the [advanced_search] loop computes
    the filter its docstring promises (region and difficulty as
    case-insensitive substrings, the trimmed season as an element of
    [best_season], all supplied criteria at once): only the list the loop
    runs over is the wrong one. *)
Lemma advanced_match_body (region difficulty season : option string)
    (d : pydict) :
  filter_typed d = true ->
  supplied (fun s => strip (lower s)) region ->
  supplied (fun s => strip (lower s)) difficulty ->
  supplied strip season ->
  advanced_match (normalize_lower region) (normalize_lower difficulty)
    (normalize_season season) (JDict d)
  = Ok (advanced_matches region difficulty season (JDict d)).
Proof.
  intros Ht Hr Hd Hs. unfold filter_typed in Ht.
  repeat (apply andb_prop in Ht; let H := fresh "T" in destruct Ht as [Ht H]).
  unfold advanced_match, advanced_matches, normalize_lower, normalize_season.
  rewrite (criterion_supplied _ region Hr), (criterion_supplied _ difficulty Hd),
          (criterion_supplied _ season Hs).
  unfold field_matches, season_matches.
  destruct region as [r|]; destruct difficulty as [x|];
    destruct season as [s|]; cbn [option_map supplied] in *;
    repeat match goal with
           | H : _ /\ _ |- _ => destruct H
           end;
    repeat first
      [ rewrite (sub_field_test _ "location" "region" d) by assumption
      | rewrite (sub_field_test _ "trail_details" "difficulty" d) by assumption
      | rewrite season_test
      | progress cbn [bind andb]
      | match goal with
        | |- context [if text_contains ?a ?b then _ else _] =>
            destruct (text_contains a b)
        end ];
    rewrite ?andb_true_r; reflexivity.
Qed.

(** *** Clearing the cache *)

Lemma clear_data_cache_well_cached (w : World) :
  well_cached (snd (clear_data_cache w)).
Proof. intros cached H. discriminate H. Qed.

(** After [clear_data_cache] the next load reads the file again. *)
Lemma load_after_clear (w : World) (f : File) (src : list json) :
  file w = Some f -> source_list f src ->
  exists trails w',
    load_trail_data (snd (clear_data_cache w)) = (Ok trails, w')
    /\ loaded_from src trails
    /\ reads w' = S (reads w).
Proof.
  intros Hf Hs.
  destruct (load_stale (snd (clear_data_cache w)) f src Hf eq_refl Hs)
    as (w' & Hl & _ & _ & _ & Hr).
  do 2 eexists. split; [exact Hl|]. split; [apply kept_loaded_from|exact Hr].
Qed.

(** The loader keeps as many records as the source has admissible
    elements. *)
Lemma kept_length (src : list json) :
  forall clock tick index,
    length (kept clock tick index src) = length (filter admissible src).
Proof.
  induction src as [|t rest IH]; intros clock tick index; simpl; auto.
  destruct t; simpl; auto.
  destruct (truthy (dict_get "id" JNull d)); simpl; auto.
Qed.

(** A record with valid coordinates whose name is present and not a string
    stops the search, wherever it stands in the collection. *)
Lemma search_step_bad_name (nq : string) (d : pydict) (acc : list json)
    (v : json) :
  coordinates_valid d = true -> dict_find "name" d = Some v ->
  isinstance_str v = false ->
  search_step nq (JDict d) acc = Raise AttributeError.
Proof.
  intros Hv Hn Hs. unfold search_step.
  rewrite has_valid_coordinates_record, Hv. cbn [bind negb py_get].
  rewrite (dict_get_some _ _ _ _ Hn). now destruct v.
Qed.

Lemma search_loop_bad_name (nq : string) (d : pydict) (v : json)
    (trails : list json) :
  In (JDict d) trails ->
  coordinates_valid d = true -> dict_find "name" d = Some v ->
  isinstance_str v = false ->
  forall acc, exists e, search_loop nq trails acc = Raise e.
Proof.
  intros Hin Hv Hn Hs.
  induction trails as [|t rest IH]; intros acc; [contradiction|].
  simpl. destruct Hin as [->|Hin].
  - rewrite (search_step_bad_name nq d acc v Hv Hn Hs). simpl. eauto.
  - destruct (search_step nq t acc) as [acc'|e]; simpl; eauto.
Qed.

End Properties.

(* ====================================================================== *)
(** ** Further properties of the module *)
(* ====================================================================== *)

Section FurtherProperties.

Context {PS : PyStr}.

(** *** The coordinate check *)

(** X1: [_has_valid_coordinates] never raises, whatever value it is given:
    on anything but an object it answers [False], and on an object it
    answers [True] exactly when [location] and its [coordinates] are
    objects and [lat] and [lng] are finite numbers with
    [-90 <= lat <= 90] and [-180 <= lng <= 180] (so [NaN], the infinities,
    strings and [null] are refused). *)
Theorem has_valid_coordinates_exact (trail : json) :
  (exists b, _has_valid_coordinates trail = Ok b)
  /\ (isinstance_dict trail = false -> _has_valid_coordinates trail = Ok false)
  /\ (_has_valid_coordinates trail = Ok true
      <-> exists d location c lat lng qa qo,
            trail = JDict d
            /\ dict_find "location" d = Some (JDict location)
            /\ dict_find "coordinates" location = Some (JDict c)
            /\ dict_find "lat" c = Some lat
            /\ dict_find "lng" c = Some lng
            /\ number_value lat = Some (FFin qa)
            /\ number_value lng = Some (FFin qo)
            /\ (inject_Z (-90) <= qa)%Q /\ (qa <= inject_Z 90)%Q
            /\ (inject_Z (-180) <= qo)%Q /\ (qo <= inject_Z 180)%Q).
Proof.
  split; [|split].
  - destruct (isinstance_dict trail) eqn:E.
    + destruct trail; try discriminate.
      rewrite has_valid_coordinates_record. eauto.
    + rewrite (has_valid_coordinates_other trail E). eauto.
  - apply has_valid_coordinates_other.
  - destruct (isinstance_dict trail) eqn:E.
    + destruct trail as [| | | | | |d]; try discriminate.
      rewrite has_valid_coordinates_record. unfold coordinates_valid. split.
      * intros H.
        destruct (dict_find "location" d) as [[| | | | | |location]|] eqn:El;
          try discriminate.
        destruct (dict_find "coordinates" location) as [[| | | | | |c]|] eqn:Ec;
          try discriminate.
        destruct (dict_find "lat" c) as [lat|] eqn:Ela; [|discriminate].
        destruct (dict_find "lng" c) as [lng|] eqn:Eln; [|discriminate].
        injection H as H'. apply andb_prop in H'. destruct H' as [Ha Ho].
        apply in_bounds_spec in Ha. apply in_bounds_spec in Ho.
        destruct Ha as (qa & Hqa & Ha1 & Ha2).
        destruct Ho as (qo & Hqo & Ho1 & Ho2).
        exists d, location, c, lat, lng, qa, qo. repeat split; auto.
      * intros (d' & location & c & lat & lng & qa & qo & Hd & Hl & Hc & Hla
                & Hln & Hqa & Hqo & Ha1 & Ha2 & Ho1 & Ho2).
        inversion Hd; subst d'. rewrite Hl, Hc, Hla, Hln. f_equal.
        apply andb_true_intro. split; apply in_bounds_spec; eauto.
    + rewrite (has_valid_coordinates_other trail E). split; [discriminate|].
      intros (d & _ & _ & _ & _ & _ & _ & Hd & _). subst trail. discriminate.
Qed.

(** *** The loader and its cache *)

(** X2: after [clear_data_cache] the next load reads the file again even
    if it did not change, and returns what the loader builds from the
    file's list. *)
Theorem clear_then_load_rereads (w : World) (f : File) (src : list json) :
  file w = Some f -> source_list f src ->
  exists trails w',
    load_trail_data (snd (clear_data_cache w)) = (Ok trails, w')
    /\ loaded_from src trails
    /\ reads w' = S (reads w)
    /\ _data_cache w' = Some trails
    /\ _cache_timestamp w' = Some (mtime f).
Proof.
  intros Hf Hs.
  destruct (load_stale (snd (clear_data_cache w)) f src Hf eq_refl Hs)
    as (w' & Hl & _ & Hc & Ht & Hr).
  do 2 eexists. split; [exact Hl|]. split; [apply kept_loaded_from|].
  split; [exact Hr|]. split; [exact Hc|exact Ht].
Qed.

(** X3: when the file's modification time differs from the cached
    timestamp, the cached collection is not served: the load reads the
    file once, returns what the loader builds from its present list, and
    stores that collection with the new timestamp. *)
Theorem load_on_changed_file (w : World) (f : File) (src : list json)
    (t : Q) :
  file w = Some f ->
  _cache_timestamp w = Some t -> Qeq_bool t (mtime f) = false ->
  source_list f src ->
  exists trails w',
    load_trail_data w = (Ok trails, w')
    /\ loaded_from src trails
    /\ reads w' = S (reads w)
    /\ _data_cache w' = Some trails
    /\ _cache_timestamp w' = Some (mtime f)
    /\ load_trail_data w' = (Ok trails, w').
Proof.
  intros Hf Ht Hne Hs.
  assert (Hc : fresh_cache w (mtime f) = None).
  { unfold fresh_cache. rewrite Ht. simpl. rewrite Hne.
    now destruct (_data_cache w). }
  destruct (load_stale w f src Hf Hc Hs) as (w' & Hl & Hf' & Hd & Ht' & Hr).
  do 2 eexists. split; [exact Hl|]. split; [apply kept_loaded_from|].
  split; [exact Hr|]. split; [exact Hd|]. split; [exact Ht'|].
  apply (load_fresh w' f); [congruence|].
  unfold fresh_cache. rewrite Hd, Ht'. now rewrite timestamp_eq_refl.
Qed.

(** X4: a load that fails (no file; or, without a fresh cache, a file that
    cannot be read, is not JSON, is not an object or has no list
    [eco_trails]) returns the empty list and leaves [_data_cache] and
    [_cache_timestamp] as they were: a failure neither caches the empty
    result nor drops the collection cached before. *)
Theorem failed_load_keeps_cache (w : World) :
  unusable_source w ->
  exists w',
    load_trail_data w = (Ok [], w')
    /\ file w' = file w
    /\ _data_cache w' = _data_cache w
    /\ _cache_timestamp w' = _cache_timestamp w.
Proof.
  unfold unusable_source. destruct (file w) as [f|] eqn:Hf.
  - intros [Hc Hu].
    destruct (load_unusable w f Hf Hc Hu) as (w' & Hl & H1 & H2 & H3 & _).
    exists w'. repeat split; auto. congruence.
  - intros _. exists w. unfold load_trail_data, load_try. rewrite Hf.
    repeat split; auto.
Qed.

Lemma dict_find_stamp (key now : string) (i : nat) (d : pydict) :
  key <> "_index" -> key <> "_loaded_at" ->
  dict_find key (stamp now i d) = dict_find key d.
Proof. intros. unfold stamp. rewrite !dict_find_set_other; auto. Qed.

(** X5: loading changes nothing in a record but its two metadata fields:
    every loaded record comes from an object of the file's list, has the
    same value as that object under every key other than [_index] and
    [_loaded_at], and carries under these two the object's position and a
    timestamp string, whatever the object held there. *)
Theorem load_keeps_fields (w : World) (f : File) (src trails : list json)
    (w1 : World) :
  file w = Some f -> fresh_cache w (mtime f) = None -> source_list f src ->
  load_trail_data w = (Ok trails, w1) ->
  forall r, In r trails ->
    exists i d rd now,
      nth_error src i = Some (JDict d)
      /\ r = JDict rd
      /\ (forall key, key <> "_index" -> key <> "_loaded_at" ->
                      dict_find key rd = dict_find key d)
      /\ dict_find "_index" rd = Some (JInt (Z.of_nat i))
      /\ dict_find "_loaded_at" rd = Some (JStr now).
Proof.
  intros Hf Hc Hs Hl r Hin.
  destruct (load_stale w f src Hf Hc Hs) as (w' & Hl' & _).
  rewrite Hl' in Hl. inversion Hl; subst trails w1.
  destruct (kept_inv _ _ _ _ _ Hin) as (i & d & now & Hn & _ & Hr).
  exists i, d, (stamp now (0 + i) d), now. simpl in *.
  split; [exact Hn|]. split; [exact Hr|]. split; [|split].
  - intros key H1 H2. now apply dict_find_stamp.
  - unfold stamp. apply dict_find_set_same.
  - unfold stamp. rewrite dict_find_set_other by discriminate.
    apply dict_find_set_same.
Qed.

(** X6: a load that reads the file keeps exactly as many records as the
    file's list has objects with a truthy [id], never more than the list
    is long, and reads the file once. *)
Theorem load_count (w : World) (f : File) (src trails : list json)
    (w1 : World) :
  file w = Some f -> fresh_cache w (mtime f) = None -> source_list f src ->
  load_trail_data w = (Ok trails, w1) ->
  length trails = length (filter admissible src)
  /\ (length trails <= length src)%nat
  /\ reads w1 = S (reads w).
Proof.
  intros Hf Hc Hs Hl.
  destruct (load_stale w f src Hf Hc Hs) as (w' & Hl' & _ & _ & _ & Hr).
  rewrite Hl' in Hl. inversion Hl; subst trails w1.
  rewrite kept_length. split; [reflexivity|]. split; [|exact Hr].
  apply filter_length_le.
Qed.

(** *** Validator and loader *)

(** The validator's answer on a record, rule by rule. *)
Lemma validate_trail_data_record (d : pydict) :
  validate_trail_data (JDict d)
  = Ok (Nat.eqb (length (failed_messages (validation_rules d))) 0,
        failed_messages (validation_rules d)).
Proof.
  unfold validate_trail_data. simpl required_loop. simpl bind.
  rewrite has_valid_coordinates_record. simpl bind.
  rewrite !dict_get_truthy.
  rewrite (dict_get_present isinstance_dict "location") by reflexivity.
  rewrite (dict_get_present isinstance_dict "trail_details") by reflexivity.
  rewrite (dict_get_present isinstance_list "best_season") by reflexivity.
  unfold validation_rules, failed_messages.
  destruct (present_and truthy (dict_find "id" d));
    destruct (present_and truthy (dict_find "name" d));
    destruct (coordinates_valid d);
    destruct (if_present isinstance_dict (dict_find "location" d));
    destruct (if_present isinstance_dict (dict_find "trail_details" d));
    destruct (if_present isinstance_list (dict_find "best_season" d));
    reflexivity.
Qed.

(** X7: the validator is stricter than the loader and than the coordinate
    pre-filter of the search: a record [validate_trail_data] declares valid
    has no error message, has a truthy name, is admitted by the loader and
    passes [_has_valid_coordinates]. *)
Theorem valid_record_is_admitted (d : pydict) (errors : list string) :
  validate_trail_data (JDict d) = Ok (true, errors) ->
  errors = []
  /\ admissible (JDict d) = true
  /\ _has_valid_coordinates (JDict d) = Ok true
  /\ present_and truthy (dict_find "name" d) = true.
Proof.
  rewrite validate_trail_data_record, has_valid_coordinates_record.
  unfold validation_rules, failed_messages, admissible.
  rewrite dict_get_truthy.
  destruct (present_and truthy (dict_find "id" d));
    destruct (present_and truthy (dict_find "name" d));
    destruct (coordinates_valid d);
    destruct (if_present isinstance_dict (dict_find "location" d));
    destruct (if_present isinstance_dict (dict_find "trail_details" d));
    destruct (if_present isinstance_list (dict_find "best_season" d));
    cbn [negb filter map fst snd length Nat.eqb];
    intros H; inversion H; auto.
Qed.

(** *** Guards of the query functions *)

Lemma truthy_empty_str : truthy (JStr "") = false.
Proof. reflexivity. Qed.

(** X8: the guards answer before anything is loaded.  An empty query, a
    query that is blank after normalization, an empty identifier and an
    empty region give the empty result and leave the world untouched: no
    file access, no change of the cache. *)
Theorem guards_touch_nothing (w : World) :
  search_trails "" w = (Ok [], w)
  /\ (forall query, strip (lower query) = "" ->
                    search_trails query w = (Ok [], w))
  /\ get_trail_by_id "" w = (Ok None, w)
  /\ get_trails_by_region "" w = (Ok [], w).
Proof.
  split; [reflexivity|]. split; [|split; reflexivity].
  intros query Hq. unfold search_trails. cbv zeta. rewrite Hq.
  rewrite truthy_empty_str. now destruct (negb (truthy (JStr query))).
Qed.

(** *** Keyword search on arbitrary records *)

Lemma subseq_all_skipped {A : Type} (l : list A) : subseq [] l.
Proof. induction l; constructor; auto. Qed.

Lemma search_loop_subseq (nq : string) (trails : list json) :
  forall acc l,
    search_loop nq trails acc = Ok l ->
    exists m, l = acc ++ m /\ subseq m trails
              /\ (forall t, In t m -> _has_valid_coordinates t = Ok true).
Proof.
  induction trails as [|x rest IH]; simpl; intros acc l H.
  - inversion H; subst. exists []. rewrite app_nil_r.
    repeat split; [constructor|contradiction].
  - destruct (search_step nq x acc) as [acc'|e] eqn:Hs; simpl in H;
      [|discriminate].
    destruct (IH _ _ H) as (m & Hl & Hm & Hv).
    destruct (search_step_inv _ _ _ _ Hs) as [E|[E Hx]]; subst acc'.
    + exists m. repeat split; auto. now constructor.
    + exists (x :: m). rewrite Hl, <- app_assoc. repeat split.
      * now constructor.
      * intros t [<-|Ht]; auto.
Qed.

(** X9: whatever the records look like, when [search_trails] returns a
    list it is the loaded collection with some records left out: nothing
    that was not loaded, nothing twice that was loaded once, the load order
    kept; and every record in it passed the coordinate check. *)
Theorem search_returns_subsequence (query : string) (w w1 w' : World)
    (trails l : list json) :
  load_trail_data w = (Ok trails, w1) ->
  search_trails query w = (Ok l, w') ->
  subseq l trails
  /\ (forall t, In t l -> _has_valid_coordinates t = Ok true).
Proof.
  intros Hl. unfold search_trails.
  destruct (negb (truthy (JStr query))).
  { intros H. inversion H. split; [apply subseq_all_skipped|contradiction]. }
  cbv zeta. destruct (negb (truthy (JStr (strip (lower query))))).
  { intros H. inversion H. split; [apply subseq_all_skipped|contradiction]. }
  unfold bind_py, lift. rewrite Hl. intros H. inversion H as [[H1 H2]].
  destruct (search_loop_subseq _ _ _ _ H1) as (m & E & Hm & Hv).
  simpl in E. subst m. auto.
Qed.

(** X10: one record is enough to make the search fail.  If the loaded
    collection holds a record that passes the coordinate check and whose
    [name] is present and not a string (JSON [null] or a number, say),
    every query that survives normalization raises, wherever the record
    stands and whatever the other records are. *)
Theorem search_raises_on_bad_name (query : string) (w w1 : World)
    (trails : list json) (d : pydict) (v : json) :
  load_trail_data w = (Ok trails, w1) ->
  query <> "" -> strip (lower query) <> "" ->
  In (JDict d) trails ->
  coordinates_valid d = true ->
  dict_find "name" d = Some v -> isinstance_str v = false ->
  exists e, search_trails query w = (Raise e, w1).
Proof.
  intros Hl Hq Hnq Hin Hv Hn Hs.
  unfold search_trails. cbv zeta.
  rewrite (truthy_nonempty_str query Hq), (truthy_nonempty_str _ Hnq).
  cbn [negb]. unfold bind_py, lift. rewrite Hl.
  destruct (search_loop_bad_name (strip (lower query)) d v trails
              Hin Hv Hn Hs []) as (e & He).
  exists e. now rewrite He.
Qed.

Lemma search_step_name_match (nq : string) (d : pydict) (acc : list json)
    (s : string) :
  coordinates_valid d = true -> dict_find "name" d = Some (JStr s) ->
  str_in nq (lower s) = true ->
  search_step nq (JDict d) acc = Ok (acc ++ [JDict d]).
Proof.
  intros Hv Hn Hs. unfold search_step.
  rewrite has_valid_coordinates_record, Hv. cbn [bind negb py_get].
  rewrite (dict_get_some _ _ _ _ Hn). cbn [py_lower bind]. now rewrite Hs.
Qed.

(** X11: the name is tested first and a match ends the tests for that
    record.  If every record with valid coordinates has a string name that
    contains the normalized query, the search returns exactly the records
    with valid coordinates, and no other field is read: descriptions,
    keywords or difficulties of any type do no harm. *)
Theorem search_stops_at_name (query : string) (w w1 : World)
    (trails : list json) :
  load_trail_data w = (Ok trails, w1) ->
  query <> "" -> strip (lower query) <> "" ->
  (forall d, In (JDict d) trails -> coordinates_valid d = true ->
             exists s, dict_find "name" d = Some (JStr s)
                       /\ str_in (strip (lower query)) (lower s) = true) ->
  search_trails query w
  = (Ok (filter (fun t => match t with
                          | JDict d => coordinates_valid d
                          | _ => false
                          end) trails), w1).
Proof.
  intros Hl Hq Hnq Hall.
  unfold search_trails. cbv zeta.
  rewrite (truthy_nonempty_str query Hq), (truthy_nonempty_str _ Hnq).
  cbn [negb]. unfold bind_py, lift. rewrite Hl. f_equal.
  set (nq := strip (lower query)) in *.
  change (search_loop nq trails []
          = Ok ([] ++ filter (fun t => match t with
                                       | JDict d => coordinates_valid d
                                       | _ => false
                                       end) trails)).
  generalize (@nil json) as acc. clear Hl.
  induction trails as [|t rest IH]; intros acc; simpl.
  - now rewrite app_nil_r.
  - assert (Hrest : forall d, In (JDict d) rest -> coordinates_valid d = true ->
                      exists s, dict_find "name" d = Some (JStr s)
                                /\ str_in nq (lower s) = true)
      by (intros d Hin; apply Hall; now right).
    destruct t as [| | | | | |d];
      try (rewrite search_step_invalid
             by (apply has_valid_coordinates_other; reflexivity);
           simpl; now apply IH).
    destruct (coordinates_valid d) eqn:Hv.
    + destruct (Hall d (or_introl eq_refl) Hv) as (s & Hn & Hs).
      rewrite (search_step_name_match nq d acc s Hv Hn Hs). simpl.
      rewrite (IH Hrest). now rewrite <- app_assoc.
    + rewrite search_step_invalid
        by (rewrite has_valid_coordinates_record; now rewrite Hv).
      simpl. now apply IH.
Qed.

(** *** Lookup by identifier on a loaded collection *)

(** What a load returns was built by the loader, given that the cache
    was. *)
Lemma load_returns_loaded (w w1 : World) (trails : list json) :
  well_cached w -> load_trail_data w = (Ok trails, w1) ->
  exists src, loaded_from src trails.
Proof.
  intros Hwc Hl. destruct (file w) as [f|] eqn:Hf.
  - destruct (fresh_cache w (mtime f)) as [cached|] eqn:Hc.
    + rewrite (load_fresh w f cached Hf Hc) in Hl. inversion Hl; subst.
      apply Hwc. unfold fresh_cache in Hc.
      destruct (_data_cache w1); [|discriminate].
      destruct (timestamp_eq (_cache_timestamp w1) (mtime f)); congruence.
    + destruct (source_cases f) as [[src Hs]|Hu].
      * destruct (load_stale w f src Hf Hc Hs) as (w' & Hl' & _).
        rewrite Hl' in Hl. inversion Hl; subst.
        exists src. apply kept_loaded_from.
      * destruct (load_unusable w f Hf Hc Hu) as (w' & Hl' & _).
        rewrite Hl' in Hl. inversion Hl; subst.
        exists []. apply loaded_from_nil.
  - unfold load_trail_data, load_try in Hl. rewrite Hf in Hl.
    inversion Hl; subst. exists []. apply loaded_from_nil.
Qed.

Lemma find_by_id_records (tid : string) (trails : list json) :
  (forall r, In r trails -> exists d, r = JDict d) ->
  exists res,
    find_by_id tid trails = Ok res
    /\ match res with
       | Some r =>
           exists before after d,
             trails = before ++ r :: after
             /\ r = JDict d
             /\ dict_get "id" JNull d = JStr tid
             /\ (forall d', In (JDict d') before ->
                            dict_get "id" JNull d' <> JStr tid)
       | None =>
           forall d', In (JDict d') trails -> dict_get "id" JNull d' <> JStr tid
       end.
Proof.
  induction trails as [|x rest IH]; intros Hd.
  - exists None. split; [reflexivity|]. intros d' [].
  - destruct (Hd x (or_introl eq_refl)) as (d & ->).
    simpl. destruct (py_eq_str (dict_get "id" JNull d) tid) eqn:E.
    + exists (Some (JDict d)). split; [reflexivity|].
      exists [], rest, d. apply py_eq_str_true in E.
      repeat split; auto; intros d' [].
    + assert (Hne : dict_get "id" JNull d <> JStr tid).
      { intros H. apply py_eq_str_true in H. congruence. }
      destruct IH as (res & Hf & Hres); [intros r Hr; apply Hd; now right|].
      exists res. split; [exact Hf|]. destruct res as [r|].
      * destruct Hres as (before & after & rd & Ht & Hr & Hid & Hb).
        exists (JDict d :: before), after, rd. rewrite Ht.
        repeat split; auto.
        intros d' [H|H]; [inversion H; now subst|now apply Hb].
      * intros d' [H|H]; [inversion H; now subst|now apply Hres].
Qed.

(** X12: on a loaded collection [get_trail_by_id] does not raise.  For a
    non-empty identifier it returns a record of the collection whose [id] is
    that string, the first one in load order, or [None] when no record of
    the collection has that id. *)
Theorem get_trail_by_id_finds_first (tid : string) (w w1 : World)
    (trails : list json) :
  well_cached w -> load_trail_data w = (Ok trails, w1) -> tid <> "" ->
  exists res,
    get_trail_by_id tid w = (Ok res, w1)
    /\ match res with
       | Some r =>
           exists before after d,
             trails = before ++ r :: after
             /\ r = JDict d
             /\ dict_get "id" JNull d = JStr tid
             /\ (forall d', In (JDict d') before ->
                            dict_get "id" JNull d' <> JStr tid)
       | None =>
           forall d', In (JDict d') trails -> dict_get "id" JNull d' <> JStr tid
       end.
Proof.
  intros Hwc Hl Htid.
  destruct (load_returns_loaded w w1 trails Hwc Hl) as (src & Hfrom & _).
  destruct (find_by_id_records tid trails) as (res & Hf & Hres).
  { intros r Hr. destruct (Hfrom r Hr) as (d & Hd & _). eauto. }
  exists res. split; [|exact Hres].
  unfold get_trail_by_id. rewrite (truthy_nonempty_str tid Htid).
  cbn [negb]. unfold bind_py, lift. now rewrite Hl, Hf.
Qed.

(** *** Region lookup *)

Lemma str_in_empty_needle (s : string) : str_in "" s = true.
Proof. now destruct s. Qed.

Lemma region_loop_typed (nq : string) (trails : list json) :
  (forall t, In t trails -> region_typed t = true) ->
  forall acc,
    region_loop nq trails acc = Ok (acc ++ filter (region_contains nq) trails).
Proof.
  induction trails as [|t rest IH]; intros Hty acc.
  - simpl. now rewrite app_nil_r.
  - assert (Ht : region_typed t = true) by (apply Hty; now left).
    assert (Hrest : forall t', In t' rest -> region_typed t' = true)
      by (intros t' Hin; apply Hty; now right).
    destruct t as [| | | | | |d]; try discriminate.
    unfold region_typed in Ht. apply andb_prop in Ht. destruct Ht as [T1 T2].
    assert (Hread :
              exists s,
                (location <- py_get (JDict d) "location" (JDict []) ;;
                 region_field <- py_get location "region" (JStr "") ;;
                 py_lower region_field) = Ok s
                /\ str_in nq s = region_contains nq (JDict d)).
    { rewrite py_get_dict. cbn [bind]. unfold region_contains, dict_get at 1.
      destruct (dict_find "location" d) as [[| | | | | |location]|];
        try discriminate; simpl in *.
      - unfold dict_get.
        destruct (dict_find "region" location) as [[| | | |s| |]|];
          try discriminate; simpl.
        + eauto.
        + rewrite lower_empty. eauto.
      - rewrite lower_empty. eauto. }
    destruct Hread as (s & Hs & Hc).
    cbn [region_loop filter].
    destruct (py_get (JDict d) "location" (JDict [])) as [location|e];
      cbn [bind] in *; [|discriminate].
    destruct (py_get location "region" (JStr "")) as [region_field|e];
      cbn [bind] in *; [|discriminate].
    rewrite Hs. cbn [bind]. rewrite (IH Hrest), Hc.
    destruct (region_contains nq (JDict d)); [|reflexivity].
    now rewrite <- app_assoc.
Qed.

(** X13: on a loaded collection whose records have a [location] that is
    absent or an object and a [region] that is absent or a string,
    [get_trails_by_region] returns, in load order, exactly the records
    whose lower-cased region contains the lower-cased, trimmed term, an
    absent region counting as the empty string; records without valid
    coordinates are not left out here. *)
Theorem get_trails_by_region_filters (region : string) (w w1 : World)
    (trails : list json) :
  load_trail_data w = (Ok trails, w1) ->
  region <> "" ->
  (forall t, In t trails -> region_typed t = true) ->
  get_trails_by_region region w
  = (Ok (filter (region_contains (strip (lower region))) trails), w1).
Proof.
  intros Hl Hr Hty. unfold get_trails_by_region.
  rewrite (truthy_nonempty_str region Hr). cbn [negb].
  unfold bind_py, lift. rewrite Hl. cbv zeta.
  now rewrite (region_loop_typed _ trails Hty []).
Qed.

(** X14: a region term that is not empty but blank (spaces only, say) is
    not refused as a blank search query is: the empty string occurs in
    every region, so on such a collection the whole collection comes
    back. *)
Theorem get_trails_by_region_blank (region : string) (w w1 : World)
    (trails : list json) :
  load_trail_data w = (Ok trails, w1) ->
  region <> "" -> strip (lower region) = "" ->
  (forall t, In t trails -> region_typed t = true) ->
  get_trails_by_region region w = (Ok trails, w1)
  /\ search_trails region w = (Ok [], w).
Proof.
  intros Hl Hr Hb Hty. split.
  - unfold get_trails_by_region.
    rewrite (truthy_nonempty_str region Hr). cbn [negb].
    unfold bind_py, lift. rewrite Hl. cbv zeta.
    rewrite (region_loop_typed _ trails Hty []), Hb. simpl. do 2 f_equal.
    clear Hl. induction trails as [|t rest IH]; [reflexivity|].
    assert (Ht : region_typed t = true) by (apply Hty; now left).
    simpl. rewrite IH by (intros t' Hin; apply Hty; now right).
    destruct t as [| | | | | |d]; try discriminate.
    unfold region_contains.
    unfold region_typed in Ht. apply andb_prop in Ht. destruct Ht as [_ T2].
    destruct (sub_field "region" (dict_find "location" d)) as [[| | | |s| |]|];
      try discriminate; try reflexivity.
    now rewrite str_in_empty_needle.
  - unfold search_trails. cbv zeta. rewrite Hb, truthy_empty_str.
    now destruct (negb (truthy (JStr region))).
Qed.

(** X15: region lookup and keyword search agree where both apply.  On a
    collection of records with fields of the data model's types, for a
    term that survives normalization, every record [get_trails_by_region]
    returns that has valid coordinates is also returned by
    [search_trails]. *)
Theorem region_results_are_search_results (term : string) (w w1 : World)
    (trails : list json) :
  load_trail_data w = (Ok trails, w1) ->
  term <> "" -> strip (lower term) <> "" ->
  (forall t, In t trails -> region_typed t = true) ->
  (forall d, In (JDict d) trails -> coordinates_valid d = true ->
             text_typed d = true) ->
  exists by_region found,
    get_trails_by_region term w = (Ok by_region, w1)
    /\ search_trails term w = (Ok found, w1)
    /\ (forall t, In t by_region -> _has_valid_coordinates t = Ok true ->
                  In t found).
Proof.
  intros Hl Ht Hnq Hrt Htt.
  exists (filter (region_contains (strip (lower term))) trails),
         (search_spec (strip (lower term)) trails).
  split; [|split].
  - unfold get_trails_by_region.
    rewrite (truthy_nonempty_str term Ht). cbn [negb].
    unfold bind_py, lift. rewrite Hl. cbv zeta.
    now rewrite (region_loop_typed _ trails Hrt []).
  - unfold search_trails. cbv zeta.
    rewrite (truthy_nonempty_str term Ht), (truthy_nonempty_str _ Hnq).
    cbn [negb]. unfold bind_py, lift. rewrite Hl.
    now rewrite (search_loop_typed _ trails Hnq Htt []).
  - intros t Hin Hv. apply filter_In in Hin. destruct Hin as [Hin Hc].
    unfold search_spec. apply filter_In. split; [exact Hin|].
    destruct t as [| | | | | |d]; try discriminate.
    rewrite has_valid_coordinates_record in Hv. inversion Hv as [Hv'].
    rewrite Hv'. simpl. unfold search_matches, region_contains in *.
    destruct (sub_field "region" (dict_find "location" d)) as [[| | | |s| |]|];
      try discriminate.
    + simpl. rewrite Hc. now rewrite !orb_true_r.
    + now rewrite (str_in_empty_hay _ Hnq) in Hc.
Qed.

(** *** The counts of the statistics *)

Lemma float_key_eqb_sym (x y : pyfloat) :
  float_key_eqb x y = float_key_eqb y x.
Proof.
  destruct x as [|s|p], y as [|t|q]; simpl; try reflexivity.
  - now destruct s, t.
  - destruct (Qeq_bool p q) eqn:E.
    + apply Qeq_bool_iff in E. symmetry. apply Qeq_bool_iff. now symmetry.
    + destruct (Qeq_bool q p) eqn:E'; [|reflexivity].
      apply Qeq_bool_iff in E'. symmetry in E'. apply Qeq_bool_iff in E'.
      congruence.
Qed.

Lemma float_key_eqb_shift (x y z : pyfloat) :
  float_key_eqb x y = true -> float_key_eqb x z = float_key_eqb y z.
Proof.
  destruct x as [|s|p], y as [|t|q]; simpl; try discriminate; intros H.
  - reflexivity.
  - destruct s, t; try discriminate; reflexivity.
  - apply Qeq_bool_iff in H. destruct z as [|u|r]; simpl; try reflexivity.
    destruct (Qeq_bool p r) eqn:E.
    + apply Qeq_bool_iff in E. symmetry. apply Qeq_bool_iff.
      now rewrite <- H.
    + destruct (Qeq_bool q r) eqn:E'; [|reflexivity].
      apply Qeq_bool_iff in E'. rewrite <- H in E'.
      apply Qeq_bool_iff in E'. congruence.
Qed.

(** The key test through the numeric value of its arguments. *)
Lemma key_eqb_cases (a b : json) :
  key_eqb a b
  = match number_value a, number_value b with
    | Some x, Some y => float_key_eqb x y
    | None, None =>
        match a, b with
        | JNull, JNull => true
        | JStr s, JStr t => String.eqb s t
        | _, _ => false
        end
    | _, _ => false
    end.
Proof.
  destruct a, b; try reflexivity;
    simpl; try (destruct f; reflexivity);
    try (destruct f, f0; reflexivity).
Qed.

Lemma key_eqb_sym (a b : json) : key_eqb a b = key_eqb b a.
Proof.
  rewrite !key_eqb_cases.
  destruct (number_value a) as [x|] eqn:Ea, (number_value b) as [y|] eqn:Eb;
    try reflexivity.
  - apply float_key_eqb_sym.
  - destruct a, b; try reflexivity. apply String.eqb_sym.
Qed.

Lemma key_eqb_shift (a b c : json) :
  key_eqb a b = true -> key_eqb a c = key_eqb b c.
Proof.
  rewrite !key_eqb_cases.
  destruct (number_value a) as [x|] eqn:Ea, (number_value b) as [y|] eqn:Eb;
    try discriminate.
  - intros H. destruct (number_value c); [|reflexivity].
    now apply float_key_eqb_shift.
  - destruct a, b; try discriminate; intros H.
    + reflexivity.
    + apply String.eqb_eq in H. now subst.
Qed.

(** Counting one more occurrence of [key] raises the count read under
    the keys equal to [key], and no other. *)
Lemma counts_get_set (key k : json) (c : counts) :
  counts_get k 0 (counts_set key (counts_get key 0 c + 1) c)
  = counts_get k 0 c + (if key_eqb key k then 1 else 0).
Proof.
  induction c as [|[k0 n] c IH]; simpl.
  - destruct (key_eqb key k); reflexivity.
  - destruct (key_eqb k0 key) eqn:E; simpl.
    + rewrite (key_eqb_shift k0 key k E).
      destruct (key_eqb key k); lia.
    + destruct (key_eqb k0 k) eqn:E'; [|exact IH].
      destruct (key_eqb key k) eqn:E''; [|lia].
      assert (H1 : key_eqb k key = true) by (rewrite key_eqb_sym; exact E'').
      pose proof (key_eqb_shift k key k0 H1) as H2.
      rewrite (key_eqb_sym k k0), E' in H2.
      rewrite (key_eqb_sym key k0), E in H2. discriminate H2.
Qed.

Lemma count_incr_get (key k : json) (c c' : counts) :
  count_incr key c = Ok c' ->
  counts_get k 0 c' = counts_get k 0 c + (if key_eqb key k then 1 else 0).
Proof.
  unfold count_incr. destruct (hashable key); [|discriminate].
  intros H. inversion H. apply counts_get_set.
Qed.

Lemma count_seasons_get (k : json) (l : list json) :
  forall c c',
    count_seasons l c = Ok c' ->
    counts_get k 0 c'
    = counts_get k 0 c + Z.of_nat (length (filter (fun s => key_eqb s k) l)).
Proof.
  induction l as [|s l IH]; simpl; intros c c' H.
  - inversion H. lia.
  - destruct (count_incr s c) as [c1|e] eqn:E; simpl in H; [|discriminate].
    rewrite (IH _ _ H), (count_incr_get _ k _ _ E).
    destruct (key_eqb s k); simpl length; lia.
Qed.

Lemma label_count_cons (label : json -> result json) (key t : json)
    (rest : list json) (l : json) :
  label t = Ok l ->
  label_count label key (t :: rest)
  = (if key_eqb l key then 1 else 0) + label_count label key rest.
Proof.
  intros H. unfold label_count. simpl. rewrite H.
  destruct (key_eqb l key); simpl length; lia.
Qed.

Lemma stats_loop_counts (k : json) (trails : list json) :
  forall rc dc sc rc' dc' sc',
    stats_loop trails rc dc sc = Ok (rc', dc', sc') ->
    counts_get k 0 rc' = counts_get k 0 rc + label_count region_label k trails
    /\ counts_get k 0 dc'
       = counts_get k 0 dc + label_count difficulty_label k trails
    /\ counts_get k 0 sc' = counts_get k 0 sc + season_count k trails.
Proof.
  induction trails as [|t rest IH]; intros rc dc sc rc' dc' sc' H.
  - simpl in H. inversion H; subst. unfold label_count. simpl. lia.
  - cbn [stats_loop] in H.
    destruct t as [| | | | | |d]; try discriminate.
    rewrite !py_get_dict in H. cbn [bind] in H.
    destruct (py_get (dict_get "location" (JDict []) d) "region"
                (JStr "Неизвестен регион")) as [region|e] eqn:Eregion;
      cbn [bind] in H; [|discriminate].
    destruct (count_incr region rc) as [rc1|e] eqn:Er;
      cbn [bind] in H; [|discriminate].
    destruct (py_get (dict_get "trail_details" (JDict []) d) "difficulty"
                (JStr "Неопределена трудност")) as [difficulty|e] eqn:Ediff;
      cbn [bind] in H; [|discriminate].
    destruct (count_incr difficulty dc) as [dc1|e] eqn:Ed;
      cbn [bind] in H; [|discriminate].
    assert (Hs : exists sc1,
               counts_get k 0 sc1
               = counts_get k 0 sc + season_count k [JDict d]
               /\ stats_loop rest rc1 dc1 sc1 = Ok (rc', dc', sc')).
    { unfold season_count. cbn [fold_right].
      destruct (dict_get "best_season" (JList []) d) as [| | | | |l|];
        cbn [bind] in H;
        try (exists sc; split; [lia|exact H]).
      destruct (count_seasons l sc) as [sc1|e] eqn:Es;
        cbn [bind] in H; [|discriminate].
      exists sc1. split; [|exact H].
      rewrite (count_seasons_get k _ _ _ Es). lia. }
    destruct Hs as (sc1 & Hsum & Hrest).
    destruct (IH _ _ _ _ _ _ Hrest) as (Hr' & Hd' & Hs').
    assert (Lr : region_label (JDict d) = Ok region)
      by (unfold region_label; rewrite py_get_dict; exact Eregion).
    assert (Ld : difficulty_label (JDict d) = Ok difficulty)
      by (unfold difficulty_label; rewrite py_get_dict; exact Ediff).
    rewrite (label_count_cons region_label k _ rest _ Lr).
    rewrite (label_count_cons difficulty_label k _ rest _ Ld).
    rewrite (count_incr_get _ k _ _ Er) in Hr'.
    rewrite (count_incr_get _ k _ _ Ed) in Hd'.
    assert (Hsc : season_count k (JDict d :: rest)
                  = season_count k [JDict d] + season_count k rest).
    { unfold season_count. cbn [fold_right].
      destruct (dict_get "best_season" (JList []) d); lia. }
    rewrite Hsc. lia.
Qed.

(** X16: what a count of the report means.  When [get_data_statistics]
    returns a report for the loaded collection, then for every key the
    count under that key in [difficulties] is the number of records whose
    difficulty (the default label when absent) is that key, the count in
    [regions] likewise for the region, and the count in [seasons] is the
    number of times the records list that season; keys compare as dict
    keys do, so [1], [1.0] and [true] are one key. *)
Theorem statistics_counts (key : json) (w w1 w2 : World)
    (trails : list json) (s : Stats) :
  load_trail_data w = (Ok trails, w1) ->
  get_data_statistics w = (Ok s, w2) ->
  counts_get key 0 (difficulties s) = label_count difficulty_label key trails
  /\ counts_get key 0 (regions s) = label_count region_label key trails
  /\ counts_get key 0 (seasons s) = season_count key trails.
Proof.
  intros Hl. unfold get_data_statistics, bind_py. rewrite Hl.
  destruct trails as [|t rest].
  - simpl. intros H. inversion H. repeat split; reflexivity.
  - cbn [truthy negb]. unfold lift.
    destruct (stats_loop (t :: rest) [] [] []) as [[[rc dc] sc]|e] eqn:Hs;
      [|discriminate].
    unfold datetime_now_isoformat. intros H. inversion H. subst s.
    cbn [difficulties regions seasons].
    destruct (stats_loop_counts key _ _ _ _ _ _ _ Hs) as (Hr & Hd & Hse).
    simpl counts_get in Hr, Hd, Hse. lia.
Qed.

(** *** Export *)

(** X17: [export_trails_to_json] never raises.  It answers [True] exactly
    when the output file can be opened and the dump into it goes through;
    it has then written one whole file, at the path given, whose
    [eco_trails] is the list given (the loaded collection when none is
    given) and whose [total_count] is the length of that list.  When the
    file cannot be opened it answers [False] and has written nothing; when
    the dump fails after the file was opened it answers [False] and leaves
    a truncated file at the path. *)
Theorem export_outcome (output_path : string) (trails : option (list json))
    (k : Disk) :
  exists exported timestamp b k',
    export_trails_to_json output_path trails k = (Ok b, k')
    /\ match trails with
       | Some given => exported = given
       | None => fst (load_trail_data (world k)) = Ok exported
       end
    /\ py_get (export_data exported timestamp) "eco_trails" JNull
       = Ok (JList exported)
    /\ (export_info <-
          py_get (export_data exported timestamp) "export_info" JNull ;;
        py_get export_info "total_count" JNull)
       = Ok (JInt (Z.of_nat (length exported)))
    /\ match can_open k output_path with
       | Raise _ => b = false /\ written k' = written k
       | Ok _ =>
           match can_dump k output_path (export_data exported timestamp) with
           | Raise _ =>
               b = false
               /\ written k' = written k ++ [(output_path, Truncated)]
           | Ok _ =>
               b = true
               /\ written k'
                  = written k
                    ++ [(output_path,
                         Complete (export_data exported timestamp))]
           end
       end.
Proof.
  unfold export_trails_to_json, export_try.
  assert (Hload : exists exported w1,
             match trails with
             | Some given => (Ok given, world k)
             | None => load_trail_data (world k)
             end = (Ok exported, w1)
             /\ match trails with
                | Some given => exported = given
                | None => fst (load_trail_data (world k)) = Ok exported
                end).
  { destruct trails as [given|].
    - eauto.
    - destruct (load_trail_data_ok (world k)) as (l & w1 & Hl).
      exists l, w1. rewrite Hl. auto. }
  destruct Hload as (exported & w1 & -> & Hexp).
  unfold datetime_now_isoformat.
  exists exported, (wall w1 (ticks w1)).
  destruct (can_open k output_path) as [u|e].
  - destruct (can_dump k output_path
                (export_data exported (wall w1 (ticks w1)))) as [u'|e'];
      do 2 eexists; (split; [reflexivity|]); cbn [written];
      (split; [exact Hexp|]); (split; [reflexivity|]);
      (split; [reflexivity|]); split; reflexivity.
  - do 2 eexists. split; [reflexivity|]. cbn [written].
    split; [exact Hexp|]. split; [reflexivity|].
    split; [reflexivity|]. split; reflexivity.
Qed.

Lemma kept_all (l : list json) :
  (forall r, In r l ->
     exists d, r = JDict d /\ truthy (dict_get "id" JNull d) = true) ->
  forall clock tick index,
    length (kept clock tick index l) = length l
    /\ (forall i d, nth_error l i = Some (JDict d) ->
          exists now,
            nth_error (kept clock tick index l) i
            = Some (JDict (stamp now (index + i) d))).
Proof.
  induction l as [|t rest IH]; intros Hall clock tick index.
  - split; [reflexivity|]. intros i d H. destruct i; discriminate.
  - destruct (Hall t (or_introl eq_refl)) as (d0 & -> & Ht).
    simpl. rewrite Ht.
    destruct (IH (fun r Hr => Hall r (or_intror Hr)) clock (S tick) (S index))
      as (Hlen & Hnth).
    split; [simpl; now rewrite Hlen|].
    intros i d H. destruct i as [|i]; simpl in H.
    + inversion H; subst. exists (clock tick). simpl. do 3 f_equal. lia.
    + destruct (Hnth i d H) as (now & Hn). exists now. simpl. rewrite Hn.
      do 3 f_equal. lia.
Qed.

(** X18: export and load round trip.  When the data file holds the export
    of a loaded collection, a load that reads it returns as many records,
    in the same order, and the record at each position is the exported one
    with its two metadata fields set anew; so every other field has the
    value it had, and [_index] is now the position in the exported list. *)
Theorem export_then_load (src trails : list json) (timestamp : string)
    (t : Q) (w : World) :
  loaded_from src trails ->
  fresh_cache w t = None ->
  exists reloaded w',
    load_trail_data (exported_world trails timestamp t w) = (Ok reloaded, w')
    /\ length reloaded = length trails
    /\ (forall i d, nth_error trails i = Some (JDict d) ->
          exists now rd,
            nth_error reloaded i = Some (JDict rd)
            /\ rd = stamp now i d
            /\ dict_find "_index" rd = Some (JInt (Z.of_nat i))
            /\ (forall key, key <> "_index" -> key <> "_loaded_at" ->
                            dict_find key rd = dict_find key d)).
Proof.
  intros (Hdict & _) Hc.
  set (f := {| mtime := t; content := Ok (export_data trails timestamp) |}).
  assert (Hs : source_list f trails) by (eexists; split; reflexivity).
  destruct (load_stale (exported_world trails timestamp t w) f trails
              eq_refl Hc Hs) as (w' & Hl & _).
  do 2 eexists. split; [exact Hl|].
  destruct (kept_all trails Hdict
              (wall (exported_world trails timestamp t w))
              (ticks (exported_world trails timestamp t w)) 0%nat)
    as (Hlen & Hnth).
  split; [exact Hlen|].
  intros i d Hi. destruct (Hnth i d Hi) as (now & Hn).
  exists now, (stamp now i d). simpl in Hn.
  split; [exact Hn|]. split; [reflexivity|].
  split; [unfold stamp; apply dict_find_set_same|].
  intros key H1 H2. now apply dict_find_stamp.
Qed.

End FurtherProperties.

(* ====================================================================== *)
(** ** The properties on the sample data *)
(* ====================================================================== *)

#[local] Existing Instance AsciiStr.

Example load_mixed_world :
  fst (load_trail_data mixed_world)
  = Ok [JDict (stamp "2025-06-01T12:00:00" 1 nameless); 
        match rila_lakes with
        | JDict d => JDict (stamp "2025-06-01T12:00:00" 3 d)
        | other => other
        end].
Proof. reflexivity. Qed.

Example search_rila : 
  fst (search_trails "rila" rila_world) = Ok [rila_lakes_loaded]
  /\ fst (search_trails "RILA" rila_world) = Ok [rila_lakes_loaded]
  /\ fst (search_trails "" rila_world) = Ok [].
Proof. repeat split; reflexivity. Qed.

(** JSON [true] and [false] pass for numbers, as [bool] is an [int]. *)
Example boolean_coordinates :
  _has_valid_coordinates
    (JDict [("location",
             JDict [("coordinates",
                     JDict [("lat", JBool true); ("lng", JBool false)])])])
  = Ok true.
Proof. reflexivity. Qed.

(** C1: the code does not do what the specification (and the docstring of
    [advanced_search]) says.  In a world whose loaded collection is the one
    record [rila_lakes_loaded], which satisfies the three criteria
    region "Rila", difficulty "easy", season "summer", the filter as
    specified keeps the record, and [advanced_search] returns the empty
    list. *)
Theorem advanced_search_misses_matches :
  load_trail_data rila_world = (Ok [rila_lakes_loaded], after_load rila_world)
  /\ advanced_search_spec (Some "Rila") (Some "easy") (Some "summer")
       [rila_lakes_loaded] = [rila_lakes_loaded]
  /\ advanced_matches None None None rila_lakes_loaded = true
  /\ (forall fuel,
        advanced_search (S fuel) (Some "Rila") (Some "easy") (Some "summer")
          rila_world = Some (Ok [], after_load rila_world))
  /\ (forall fuel,
        advanced_search (S fuel) None None None rila_world
        = Some (Ok [], after_load rila_world)).
Proof. repeat split; reflexivity. Qed.

(** C3, counterexample: the query " " is not empty, the one loaded record
    has valid coordinates and its name contains the normalized query (the
    empty string), and [search_trails] returns nothing, without loading;
    and on the loaded record [odd_name] the search raises. *)
Lemma search_blank_query_counterexample :
  load_trail_data rila_world = (Ok [rila_lakes_loaded], after_load rila_world)
  /\ search_spec (strip (lower " ")) [rila_lakes_loaded] = [rila_lakes_loaded]
  /\ search_trails " " rila_world = (Ok [], rila_world)
  /\ fst (search_trails "rila" (fresh_world (eco_file [odd_name])))
     = Raise AttributeError
  /\ ~ search_as_stated.
Proof.
  repeat split; try reflexivity.
  intros H.
  specialize (H " " rila_world [rila_lakes_loaded] (after_load rila_world)
                eq_refl).
  assert (Hq : " " <> "") by discriminate.
  specialize (H Hq). discriminate H.
Qed.

Lemma search_trails_correct_witness :
  "RILA" <> ""
  /\ strip (lower "RILA") <> ""
  /\ search_trails "RILA" rila_world
     = (Ok [rila_lakes_loaded], after_load rila_world)
  /\ strip (lower "  ") = ""
  /\ search_trails "  " rila_world = (Ok [], rila_world).
Proof.
  split; [discriminate|]. split; [discriminate|].
  assert (Q1 : "RILA" <> "") by discriminate.
  assert (Q2 : "  " <> "") by discriminate.
  destruct (search_trails_correct "RILA" rila_world [rila_lakes_loaded]
              (after_load rila_world) eq_refl Q1) as [Hmain _].
  destruct (search_trails_correct "  " rila_world [rila_lakes_loaded]
              (after_load rila_world) eq_refl Q2) as [_ Hblank].
  split; [|split; [reflexivity|exact (Hblank eq_refl)]].
  refine (proj1 (Hmain _ _)).
  - discriminate.
  - intros d [H|[]] _. inversion H. reflexivity.
Defined.

Lemma load_never_raises_witness :
  unusable_source broken_world
  /\ load_trail_data broken_world = (Ok [], after_load broken_world).
Proof.
  assert (U : unusable_source broken_world) by (split; [reflexivity|exact I]).
  split; [exact U|].
  destruct (load_never_raises broken_world) as (trails & w' & Hl & He).
  rewrite (He U) in Hl. unfold after_load. rewrite Hl. reflexivity.
Defined.

(** C5, counterexample: the data file is not JSON and does not change; two
    consecutive loads both return the empty list, and the second one reads
    the file again. *)
Lemma load_twice_broken_counterexample :
  load_trail_data broken_world = (Ok [], after_load broken_world)
  /\ load_trail_data (after_load broken_world)
     = (Ok [], after_load (after_load broken_world))
  /\ file (after_load broken_world) = file broken_world
  /\ reads (after_load broken_world) = 1%nat
  /\ reads (after_load (after_load broken_world)) = 2%nat
  /\ ~ load_twice_as_stated.
Proof.
  repeat split; try reflexivity.
  intros H.
  destruct (H broken_world [] (after_load broken_world) []
              (after_load (after_load broken_world)) eq_refl eq_refl)
    as [_ Hr].
  discriminate Hr.
Qed.

Lemma load_cache_hit_witness :
  loads_cleanly (after_load rila_world)
  /\ load_trail_data (after_load rila_world)
     = (Ok [rila_lakes_loaded], after_load rila_world)
  /\ load_trail_data (after_load (after_load rila_world))
     = (Ok [rila_lakes_loaded], after_load rila_world)
  /\ unusable_source broken_world
  /\ exists w',
       load_trail_data broken_world = (Ok [], w')
       /\ file w' = file broken_world
       /\ _data_cache w' = _data_cache broken_world
       /\ _cache_timestamp w' = _cache_timestamp broken_world.
Proof.
  assert (C : loads_cleanly (after_load rila_world))
    by (left; discriminate).
  assert (U : unusable_source broken_world) by (split; [reflexivity|exact I]).
  destruct (load_cache_hit (after_load rila_world)) as [Hclean _].
  destruct (Hclean C) as [Hhit Htwice].
  destruct (load_cache_hit broken_world) as [_ Hfail].
  assert (H1 : load_trail_data (after_load rila_world)
               = (Ok [rila_lakes_loaded], after_load rila_world)).
  { apply (Hhit {| mtime := 1700000000 # 1;
                   content := eco_file [rila_lakes] |}
             [rila_lakes_loaded] (1700000000 # 1)); reflexivity. }
  split; [exact C|]. split; [exact H1|]. split.
  - change (after_load (after_load rila_world))
      with (snd (load_trail_data (after_load rila_world))).
    rewrite H1. cbn [snd]. apply (Htwice _ _ H1).
  - split; [exact U|exact (Hfail U)].
Defined.

Lemma load_collection_invariant_witness :
  well_cached mixed_world
  /\ loaded_from mixed_source
       [JDict (stamp "2025-06-01T12:00:00" 1 nameless);
        match rila_lakes with
        | JDict d => JDict (stamp "2025-06-01T12:00:00" 3 d)
        | other => other
        end].
Proof.
  assert (C : well_cached mixed_world) by (intros cached H; discriminate H).
  split; [exact C|].
  refine (proj2 (proj2 (load_collection_invariant mixed_world _
                          (after_load mixed_world) C eq_refl))
            {| mtime := 1700000000 # 1; content := eco_file mixed_source |}
            mixed_source eq_refl eq_refl _).
  eexists. split; reflexivity.
Defined.

(** C8, counterexample: the loader accepts the record [odd_location],
    whose [location] is a string, and [get_data_statistics] raises on the
    loaded collection. *)
Lemma statistics_odd_location_counterexample :
  (exists trails,
      load_trail_data odd_location_world
      = (Ok trails, after_load odd_location_world)
      /\ length trails = 1%nat)
  /\ get_data_statistics odd_location_world
     = (Raise AttributeError, after_load odd_location_world)
  /\ ~ statistics_as_stated.
Proof.
  split; [eexists; split; reflexivity|]. split; [reflexivity|].
  intros H.
  destruct (H odd_location_world _ (after_load odd_location_world) eq_refl)
    as (s & w2 & Hs & _).
  discriminate Hs.
Qed.

Lemma statistics_totals_witness :
  exists s w2,
    get_data_statistics rila_world = (Ok s, w2)
    /\ total_trails s = 1
    /\ sum_counts (difficulties s) = 1
    /\ sum_counts (seasons s) = 2.
Proof.
  destruct (statistics_totals rila_world [rila_lakes_loaded]
              (after_load rila_world) eq_refl)
    as (s & w2 & Hs & Ht & Hd & _ & Hse & _).
  - intros t [<-|[]]. reflexivity.
  - exists s, w2. split; [exact Hs|]. split; [exact Ht|].
    split; [rewrite Hd; exact Ht|exact Hse].
Defined.

Lemma search_not_total_witness :
  exists trails w1,
    load_trail_data (fresh_world (eco_file [odd_keywords])) = (Ok trails, w1)
    /\ length trails = 1%nat
    /\ (forall t, In t trails -> _has_valid_coordinates t = Ok true)
    /\ search_trails "rila" (fresh_world (eco_file [odd_keywords]))
       = (Raise AttributeError, w1).
Proof.
  apply (search_not_total "rila" odd_keywords).
  - discriminate.
  - discriminate.
  - left. reflexivity.
Defined.

Lemma duplicate_ids_first_wins_witness :
  exists now,
    get_trail_by_id "pirin" pirin_world
    = (Ok (Some (JDict (stamp now 0 pirin_a))), after_load pirin_world)
    /\ In (JDict (stamp now 0 pirin_a))
          [JDict (stamp "2025-06-01T12:00:00" 0 pirin_a);
           JDict (stamp "2025-06-01T12:00:00" 1 pirin_b)].
Proof.
  destruct (duplicate_ids_first_wins pirin_world
              {| mtime := 1700000000 # 1;
                 content := eco_file [JDict pirin_a; JDict pirin_b] |}
              [JDict pirin_a; JDict pirin_b] 0 1 pirin_a pirin_b "pirin")
    as (trails & w1 & Hl & _ & (k & d & now & Hg & Hin & Hk & _ & _ & Hle & _));
    try reflexivity.
  - eexists. split; reflexivity.
  - lia.
  - discriminate.
  - assert (k = 0)%nat by lia. subst k. simpl in Hk. inversion Hk. subst d.
    exists now. inversion Hl. subst trails w1. split; [exact Hg|exact Hin].
Defined.

(* ====================================================================== *)
(** ** The further properties on the sample data *)
(* ====================================================================== *)

Lemma clear_then_load_rereads_witness :
  exists trails w',
    load_trail_data (snd (clear_data_cache (after_load rila_world)))
    = (Ok trails, w')
    /\ loaded_from [rila_lakes] trails
    /\ reads w' = 2%nat
    /\ _data_cache w' = Some trails
    /\ _cache_timestamp w' = Some (1700000000 # 1).
Proof.
  apply (clear_then_load_rereads (after_load rila_world)
           {| mtime := 1700000000 # 1; content := eco_file [rila_lakes] |}
           [rila_lakes]).
  - reflexivity.
  - eexists. split; reflexivity.
Defined.

Lemma load_on_changed_file_witness :
  _data_cache touched_world = Some [rila_lakes_loaded]
  /\ exists trails w',
       load_trail_data touched_world = (Ok trails, w')
       /\ loaded_from [JDict pirin_a] trails
       /\ reads w' = 2%nat
       /\ _data_cache w' = Some trails
       /\ _cache_timestamp w' = Some (1700000500 # 1)
       /\ load_trail_data w' = (Ok trails, w').
Proof.
  split; [reflexivity|].
  apply (load_on_changed_file touched_world
           {| mtime := 1700000500 # 1; content := eco_file [JDict pirin_a] |}
           [JDict pirin_a] (1700000000 # 1)).
  - reflexivity.
  - reflexivity.
  - reflexivity.
  - eexists. split; reflexivity.
Defined.

Lemma failed_load_keeps_cache_witness :
  exists w',
    load_trail_data broken_world = (Ok [], w')
    /\ file w' = file broken_world
    /\ _data_cache w' = None
    /\ _cache_timestamp w' = None.
Proof.
  apply (failed_load_keeps_cache broken_world).
  split; [reflexivity|exact I].
Defined.

Lemma load_keeps_fields_witness :
  exists i d rd now,
    nth_error mixed_source i = Some (JDict d)
    /\ JDict (stamp "2025-06-01T12:00:00" 1 nameless) = JDict rd
    /\ (forall key, key <> "_index" -> key <> "_loaded_at" ->
                    dict_find key rd = dict_find key d)
    /\ dict_find "_index" rd = Some (JInt (Z.of_nat i))
    /\ dict_find "_loaded_at" rd = Some (JStr now).
Proof.
  eapply (load_keeps_fields mixed_world
           {| mtime := 1700000000 # 1; content := eco_file mixed_source |}
           mixed_source _ (after_load mixed_world)).
  - reflexivity.
  - reflexivity.
  - eexists. split; reflexivity.
  - reflexivity.
  - left. reflexivity.
Defined.

Lemma load_count_witness :
  length [JDict (stamp "2025-06-01T12:00:00" 1 nameless);
          JDict (stamp "2025-06-01T12:00:00" 3 (fields_of rila_lakes))]
  = length (filter admissible mixed_source)
  /\ (length [JDict (stamp "2025-06-01T12:00:00" 1 nameless);
              JDict (stamp "2025-06-01T12:00:00" 3 (fields_of rila_lakes))]
      <= length mixed_source)%nat
  /\ reads (after_load mixed_world) = S (reads mixed_world).
Proof.
  apply (load_count mixed_world
           {| mtime := 1700000000 # 1; content := eco_file mixed_source |}
           mixed_source
           [JDict (stamp "2025-06-01T12:00:00" 1 nameless);
            JDict (stamp "2025-06-01T12:00:00" 3 (fields_of rila_lakes))]
           (after_load mixed_world)).
  - reflexivity.
  - reflexivity.
  - eexists. split; reflexivity.
  - reflexivity.
Defined.

Lemma valid_record_is_admitted_witness :
  validate_trail_data rila_lakes = Ok (true, [])
  /\ admissible rila_lakes = true
  /\ _has_valid_coordinates rila_lakes = Ok true.
Proof.
  split; [reflexivity|].
  destruct (valid_record_is_admitted (fields_of rila_lakes) [] eq_refl)
    as (_ & Ha & Hv & _).
  split; [exact Ha|exact Hv].
Defined.

Lemma search_returns_subsequence_witness :
  subseq [rila_lakes_loaded] [rila_lakes_loaded]
  /\ (forall t, In t [rila_lakes_loaded] ->
                _has_valid_coordinates t = Ok true).
Proof.
  apply (search_returns_subsequence "lakes" rila_world (after_load rila_world)
           (after_load rila_world) [rila_lakes_loaded] [rila_lakes_loaded]).
  - reflexivity.
  - reflexivity.
Defined.

Lemma search_raises_on_bad_name_witness :
  fst (search_trails "lakes" rila_world) = Ok [rila_lakes_loaded]
  /\ exists e,
       search_trails "lakes" spoiled_world = (Raise e, after_load spoiled_world).
Proof.
  split; [reflexivity|].
  eapply (search_raises_on_bad_name "lakes" spoiled_world
            (after_load spoiled_world) _
            (stamp "2025-06-01T12:00:00" 1 (fields_of odd_name)) JNull).
  - reflexivity.
  - discriminate.
  - discriminate.
  - right. left. reflexivity.
  - reflexivity.
  - reflexivity.
  - reflexivity.
Defined.

Lemma search_stops_at_name_witness :
  search_trails "RIDGE" named_world
  = (Ok [JDict (stamp "2025-06-01T12:00:00" 0 (fields_of named_oddity))],
     after_load named_world).
Proof.
  eapply (search_stops_at_name "RIDGE" named_world (after_load named_world)
            [JDict (stamp "2025-06-01T12:00:00" 0 (fields_of named_oddity))]).
  - reflexivity.
  - discriminate.
  - discriminate.
  - intros d [H|[]] _. inversion H. exists "Rila ridge".
    split; reflexivity.
Defined.

Lemma get_trail_by_id_finds_first_witness :
  exists res,
    get_trail_by_id "pirin" pirin_world = (Ok res, after_load pirin_world)
    /\ match res with
       | Some r =>
           exists before after d,
             [JDict (stamp "2025-06-01T12:00:00" 0 pirin_a);
              JDict (stamp "2025-06-01T12:00:00" 1 pirin_b)]
             = before ++ r :: after
             /\ r = JDict d
             /\ dict_get "id" JNull d = JStr "pirin"
             /\ (forall d', In (JDict d') before ->
                            dict_get "id" JNull d' <> JStr "pirin")
       | None =>
           forall d',
             In (JDict d')
                [JDict (stamp "2025-06-01T12:00:00" 0 pirin_a);
                 JDict (stamp "2025-06-01T12:00:00" 1 pirin_b)] ->
             dict_get "id" JNull d' <> JStr "pirin"
       end.
Proof.
  apply (get_trail_by_id_finds_first "pirin" pirin_world
           (after_load pirin_world)).
  - intros cached H. discriminate H.
  - reflexivity.
  - discriminate.
Defined.

Lemma get_trails_by_region_filters_witness :
  get_trails_by_region "RILA " rila_world
  = (Ok [rila_lakes_loaded], after_load rila_world).
Proof.
  refine (get_trails_by_region_filters "RILA " rila_world
            (after_load rila_world) [rila_lakes_loaded] _ _ _).
  - reflexivity.
  - discriminate.
  - intros t [<-|[]]. reflexivity.
Defined.

Lemma get_trails_by_region_blank_witness :
  get_trails_by_region "  " rila_world
  = (Ok [rila_lakes_loaded], after_load rila_world)
  /\ search_trails "  " rila_world = (Ok [], rila_world).
Proof.
  apply (get_trails_by_region_blank "  " rila_world
           (after_load rila_world) [rila_lakes_loaded]).
  - reflexivity.
  - discriminate.
  - reflexivity.
  - intros t [<-|[]]. reflexivity.
Defined.

Lemma region_results_are_search_results_witness :
  exists by_region found,
    get_trails_by_region "rila" rila_world
    = (Ok by_region, after_load rila_world)
    /\ search_trails "rila" rila_world = (Ok found, after_load rila_world)
    /\ (forall t, In t by_region -> _has_valid_coordinates t = Ok true ->
                  In t found).
Proof.
  apply (region_results_are_search_results "rila" rila_world
           (after_load rila_world) [rila_lakes_loaded]).
  - reflexivity.
  - discriminate.
  - discriminate.
  - intros t [<-|[]]. reflexivity.
  - intros d [H|[]] _. inversion H. reflexivity.
Defined.

Lemma statistics_counts_witness :
  exists s w2,
    get_data_statistics rila_world = (Ok s, w2)
    /\ counts_get (JStr "Easy") 0 (difficulties s) = 1
    /\ counts_get (JStr "Rila") 0 (regions s) = 1
    /\ counts_get (JStr "summer") 0 (seasons s) = 1.
Proof.
  destruct (get_data_statistics rila_world) as [[s|e] w2] eqn:E;
    [|discriminate E].
  exists s, w2. split; [reflexivity|].
  destruct (statistics_counts (JStr "Easy") rila_world (after_load rila_world)
              w2 [rila_lakes_loaded] s eq_refl E) as (Hd & _ & _).
  destruct (statistics_counts (JStr "Rila") rila_world (after_load rila_world)
              w2 [rila_lakes_loaded] s eq_refl E) as (_ & Hr & _).
  destruct (statistics_counts (JStr "summer") rila_world
              (after_load rila_world) w2 [rila_lakes_loaded] s eq_refl E)
    as (_ & _ & Hs).
  split; [exact Hd|]. split; [exact Hr|exact Hs].
Defined.

Lemma export_then_load_witness :
  exists reloaded w',
    load_trail_data
      (exported_world [rila_lakes_loaded] "2025-06-02T08:00:00"
         (1700000900 # 1) rila_world) = (Ok reloaded, w')
    /\ length reloaded = 1%nat
    /\ (forall i d, nth_error [rila_lakes_loaded] i = Some (JDict d) ->
          exists now rd,
            nth_error reloaded i = Some (JDict rd)
            /\ rd = stamp now i d
            /\ dict_find "_index" rd = Some (JInt (Z.of_nat i))
            /\ (forall key, key <> "_index" -> key <> "_loaded_at" ->
                            dict_find key rd = dict_find key d)).
Proof.
  apply (export_then_load [rila_lakes] [rila_lakes_loaded]
           "2025-06-02T08:00:00" (1700000900 # 1) rila_world).
  - apply (kept_loaded_from (fun _ => "2025-06-01T12:00:00") 0 [rila_lakes]).
  - reflexivity.
Defined.

Lemma advanced_match_body_witness :
  advanced_match (normalize_lower (Some "Rila")) (normalize_lower (Some "easy"))
    (normalize_season (Some " summer")) rila_lakes_loaded
  = Ok true.
Proof.
  refine (advanced_match_body (Some "Rila") (Some "easy") (Some " summer")
            (fields_of rila_lakes_loaded) _ _ _ _).
  - reflexivity.
  - split; discriminate.
  - split; discriminate.
  - split; discriminate.
Defined.
